(** * elastic-schema-tools: the ECS schema reader, SQL compiler, change
      detector and rotator

    A shallow embedding of [ecs-csv-to-sql.py] and [ecs-url-to-csv.py].
    Python values are an inductive type, a [dict] is an insertion-ordered
    association list (iteration order and [str] of a dict depend on it), the
    file system is a finite map from file names to file contents, and the
    code runs in a state-and-exception monad over the process state. *)

From Stdlib Require Import Ascii String ZArith.
From stdpp Require Import gmap strings list fin_maps.

Local Open Scope string_scope.
Local Open Scope Z_scope.

(** ** Characters that a Rocq string literal cannot hold directly *)

Definition LF : string := String "010"%char "".
Definition TAB : string := String "009"%char "".
Definition DQ : string := String "034"%char "".
Definition SQ : string := "'".

(** ** Python values *)

(** The values a parsed row can hold: [str], [bool] and [None]. *)
Inductive pyval : Type :=
| VStr (s : string)
| VBool (b : bool)
| VNone.

Global Instance pyval_eq_dec : EqDecision pyval.
Proof. solve_decision. Defined.

(** [bool(v)] *)
Definition py_bool (v : pyval) : bool :=
  match v with
  | VStr s => negb (bool_decide (s = ""))
  | VBool b => b
  | VNone => false
  end.

(** [str(v)], which is also what [%s] and an f-string field render. *)
Definition py_str (v : pyval) : string :=
  match v with
  | VStr s => s
  | VBool true => "True"
  | VBool false => "False"
  | VNone => "None"
  end.

(** The objects on which the program reads the attribute [name]: a
    [pathlib.Path] has it, a [str] does not. *)
Inductive pyobj : Type :=
| PPath (parent name : string)
| PStr (s : string).

(** ** Insertion-ordered dictionaries *)

Section Dict.
Context {K V : Type} `{EqDecision K}.

Fixpoint dict_get (k : K) (d : list (K * V)) : option V :=
  match d with
  | [] => None
  | (k', v) :: r => if decide (k = k') then Some v else dict_get k r
  end.

(** [d[k] = v]: an existing key keeps its position, a new key goes last. *)
Fixpoint dict_set (k : K) (v : V) (d : list (K * V)) : list (K * V) :=
  match d with
  | [] => [(k, v)]
  | (k', v') :: r =>
      if decide (k = k') then (k', v) :: r else (k', v') :: dict_set k v r
  end.

(** [dict(pairs)] *)
Definition dict_of (pairs : list (K * V)) : list (K * V) :=
  foldl (fun d kv => dict_set kv.1 kv.2 d) [] pairs.

Definition dict_keys (d : list (K * V)) : list K := d.*1.
End Dict.

Definition row : Type := list (string * pyval).
Definition snapshot : Type := list row.

(** ** Printed lines, exceptions, results *)

(** What [print] writes.  The two assertion messages of the reader are kept
    with the numbers they format instead of their rendered text. *)
Inductive line : Type :=
| NoDataFound (line_count : nat)
| WrongHeaderLength (column_count expected : nat)
| Text (s : string).

Inductive exn : Type :=
| AssertionError (msg : line)
| KeyError (k : string)
| IndexError
| TypeError
| AttributeError (attr : string)
| FileNotFoundError (file : string)
| URLError
| Exception (msg : string)
| SystemExit (code : Z).

(** [str(e)] as [print(str(e))] writes it. *)
Definition exn_line (e : exn) : line :=
  match e with
  | AssertionError m => m
  | KeyError k => Text (SQ +:+ k +:+ SQ)
  | IndexError => Text "list index out of range"
  | TypeError => Text "'NoneType' object is not iterable"
  | AttributeError a => Text ("'str' object has no attribute " +:+ SQ +:+ a +:+ SQ)
  | FileNotFoundError f => Text f
  | URLError => Text "urlopen error"
  | Exception m => Text m
  | SystemExit c => Text ""
  end.

Inductive result (A : Type) : Type :=
| Ok (a : A)
| Raise (e : exn).
Arguments Ok {A} a.
Arguments Raise {A} e.

(** [except Exception] catches everything here but [SystemExit]. *)
Definition is_Exception (e : exn) : bool :=
  match e with
  | SystemExit _ => false
  | _ => true
  end.

(** ** The process state *)

(** [CACHE["CONTENT"]], the module-level dictionary of ecs-url-to-csv.py. *)
Record Cache : Type := mkCache {
  OLD : option snapshot;
  NEW : option snapshot;
  CHANGES : option (list row);
  RAW : option string
}.

(** Files are named relative to [ECS_DIR]; every file the two scripts open
    lives there. *)
Record World : Type := mkWorld {
  fs : gmap string string;
  CACHE : Cache;
  stdout : list line
}.

Definition set_fs (f : gmap string string → gmap string string) (w : World) : World :=
  mkWorld (f (fs w)) (CACHE w) (stdout w).
Definition set_CACHE (f : Cache → Cache) (w : World) : World :=
  mkWorld (fs w) (f (CACHE w)) (stdout w).
Definition set_stdout (f : list line → list line) (w : World) : World :=
  mkWorld (fs w) (CACHE w) (f (stdout w)).

(** ** The monad: state passing with exceptions *)

Definition M (A : Type) : Type := World → result A * World.

Definition ret {A} (a : A) : M A := fun w => (Ok a, w).
Definition raise {A} (e : exn) : M A := fun w => (Raise e, w).
Definition bind {A B} (c : M A) (k : A → M B) : M B :=
  fun w =>
    match c w with
    | (Ok a, w') => k a w'
    | (Raise e, w') => (Raise e, w')
    end.

Notation "'let*' x ':=' c 'in' k" := (bind c (fun x => k))
  (at level 10, x pattern, c at level 100, k at level 200).
Notation "c ';;;' k" := (bind c (fun _ => k))
  (at level 100, k at level 200, right associativity).

(** [try: c  except <caught>: h] *)
Definition try_except {A} (c : M A) (h : exn → option (M A)) : M A :=
  fun w =>
    match c w with
    | (Ok a, w') => (Ok a, w')
    | (Raise e, w') =>
        match h e with
        | Some k => k w'
        | None => (Raise e, w')
        end
    end.

Definition lift {A} (r : result A) : M A := fun w => (r, w).
Definition get_world : M World := fun w => (Ok w, w).
Definition modify (f : World → World) : M unit := fun w => (Ok tt, f w).

Definition print (l : line) : M unit := modify (set_stdout (fun out => (out ++ [l])%list)).

(** [assert cond, msg] *)
Definition py_assert (cond : bool) (msg : line) : M unit :=
  if cond then ret tt else raise (AssertionError msg).

(** [d[k]] *)
Definition getitem (k : string) (d : row) : result pyval :=
  match dict_get k d with
  | Some v => Ok v
  | None => Raise (KeyError k)
  end.

(** [l[0]] and [l[-1]] *)
Definition index0 {A} (l : list A) : result A :=
  match l with
  | [] => Raise IndexError
  | x :: _ => Ok x
  end.
Definition index_last {A} (l : list A) : result A :=
  match last l with
  | Some x => Ok x
  | None => Raise IndexError
  end.

(** [o.name] *)
Definition attr_name (o : pyobj) : result string :=
  match o with
  | PPath _ n => Ok n
  | PStr _ => Raise (AttributeError "name")
  end.

(** The status the operating system sees: [sys.exit(n)] gives [n], an
    exception that reaches the top level gives 1, falling off the end 0. *)
Definition exit_status {A} (r : result A) : Z :=
  match r with
  | Ok _ => 0
  | Raise (SystemExit n) => n
  | Raise _ => 1
  end.

(** ** File primitives *)

(** [open(file, "r").read()] *)
Definition read_text (file : string) : M string :=
  fun w =>
    match fs w !! file with
    | Some c => (Ok c, w)
    | None => (Raise (FileNotFoundError file), w)
    end.

(** [open(file, "w").write(content)] *)
Definition write_text (file content : string) : M unit :=
  modify (set_fs (fun m => <[file := content]> m)).

Definition path_exists (file : string) : M bool :=
  fun w => (Ok (bool_decide (is_Some (fs w !! file))), w).

(** [os.remove(file)] *)
Definition os_remove (file : string) : M unit :=
  fun w =>
    match fs w !! file with
    | Some _ => (Ok tt, set_fs (delete file) w)
    | None => (Raise (FileNotFoundError file), w)
    end.

(** ** What the program takes from its environment *)

(** [csv_reader] is [csv.reader] on a file's text; [set_iter l] is the order
    in which [set(l)] is iterated; [py_hash] and [py_repr] are [hash] and
    [repr] on [str]; [urlopen u] is the decoded body served at [u]. *)
Class Env : Type := mkEnv {
  csv_reader : string → list (list string);
  set_iter : list pyval → list pyval;
  py_hash : string → Z;
  py_repr : string → string;
  urlopen : string → result string
}.

(** All that is known of a set's iteration order: each distinct element
    comes exactly once. *)
Definition set_iter_ok `{Env} : Prop :=
  ∀ l : list pyval, set_iter l ≡ₚ remove_dups l.

(** Exceptions in code that touches no state. *)
Definition rbind {A B} (r : result A) (k : A → result B) : result B :=
  match r with
  | Ok a => k a
  | Raise e => Raise e
  end.

Notation "'let?' x ':=' c 'in' k" := (rbind c (fun x => k))
  (at level 10, x pattern, c at level 100, k at level 200).

(** A comprehension or a [for] loop whose body may raise: the first
    exception ends it. *)
Fixpoint for_each {A B} (f : A → result B) (l : list A) : result (list B) :=
  match l with
  | [] => Ok []
  | x :: r =>
      let? y := f x in
      let? ys := for_each f r in
      Ok (y :: ys)
  end.

(** ** Module constants *)

Definition ECS_CSV_FILE : pyobj := PPath "data/Elastic" "ecs.csv".
Definition ECS_CSV_TEMFILE : pyobj := PPath "data/Elastic" "ecs-tempfile.csv".
Definition ECS_SQL_FILE : pyobj := PPath "data/Elastic" "DDL-ecs.sql".
Definition ECS_CSV_COLUMN_COUNT : nat := 9.
Definition ECS_CSV_URL : string :=
  "https://raw.githubusercontent.com/elastic/ecs/refs/heads/main/generated/csv/fields.csv".

(** The key of a file in [fs]: its name inside [ECS_DIR]. *)
Definition file_key (p : pyobj) : string :=
  match p with
  | PPath _ n => n
  | PStr s => s
  end.

(** ** The reader (the same text in both scripts) *)

Section Reader.
Context `{Env}.

Definition _read_data (file : pyobj) : M (list (list string)) :=
  let* content := read_text (file_key file) in
  ret (csv_reader content).

Definition on_AssertionError (e : exn) : option (M bool) :=
  match e with
  | AssertionError m => Some (print m;;; ret false)
  | _ => None
  end.

Definition _has_data (rawfile : list (list string)) : M bool :=
  try_except
    (py_assert (bool_decide (1 < length rawfile)%nat)
               (NoDataFound (length rawfile));;;
     ret true)
    on_AssertionError.

Definition _has_right_column_number (rawfile : list (list string)) : M bool :=
  try_except
    (let* header := lift (index0 rawfile) in
     py_assert (bool_decide (length header = ECS_CSV_COLUMN_COUNT))
               (WrongHeaderLength (length header) ECS_CSV_COLUMN_COUNT);;;
     ret true)
    on_AssertionError.

(** [[dict(zip(rawfile[0], l)) for l in rawfile[1:]]] *)
Definition _format_data (rawfile : list (list string)) : result (list row) :=
  for_each
    (fun l => let? header := index0 rawfile in
              Ok (dict_of (zip header (VStr <$> l))))
    (drop 1 rawfile).

(** The body of the loop of [_clean_data], on one row. *)
Definition _clean_data_row (d : row) : result row :=
  let? indexed := getitem "Indexed" d in
  let d := dict_set "Indexed" (VBool (py_bool indexed)) d in
  let? normalization := getitem "Normalization" d in
  let d := if decide (normalization = VStr "")
           then dict_set "Normalization" VNone d else d in
  let? example := getitem "Example" d in
  let d := if decide (example = VStr "")
           then dict_set "Example" VNone d else d in
  Ok d.

Definition _clean_data (data : list row) : result (list row) :=
  for_each _clean_data_row data.

Definition readfile (file : pyobj) : M snapshot :=
  let* data := _read_data file in
  let* has_data := _has_data data in
  if negb has_data then ret [] else
  let* right_columns := _has_right_column_number data in
  if negb right_columns then ret [] else
  let* data := lift (_format_data data) in
  let* data := lift (_clean_data data) in
  ret data.
End Reader.

(** ** String methods *)

(** [sub in s] *)
Fixpoint str_contains (sub s : string) : bool :=
  String.prefix sub s ||
  match s with
  | EmptyString => false
  | String _ s' => str_contains sub s'
  end.

(** [s.replace(old, new)] for a non-empty [old]: the occurrences are taken
    from the left and do not overlap.  [skip] counts the characters of a
    replaced occurrence still to be passed over. *)
Fixpoint replace_from (old new : string) (skip : nat) (s : string) : string :=
  match s with
  | EmptyString => EmptyString
  | String c s' =>
      match skip with
      | S k => replace_from old new k s'
      | O =>
          if String.prefix old s
          then new +:+ replace_from old new (String.length old - 1) s'
          else String c (replace_from old new 0 s')
      end
  end.

Definition str_replace (old new s : string) : string := replace_from old new 0 s.

(** [sep.join(l)] *)
Definition str_join (sep : string) (l : list string) : string := String.concat sep l.

(** [f'"{x}"'] *)
Definition dquoted (x : string) : string := DQ +:+ x +:+ DQ.

(** * ecs-csv-to-sql.py *)

Module CsvToSql.

Definition DEFAULT_SCHEMA_NAME : string := "ecs".
Definition DEFAULT_TABLE_NAME : string := "elastic_log_schema".
Definition DEFAULT_TABLE_OWNER : string := "postgres".

Section Compiler.
Context `{Env}.

Definition readfile : M snapshot := readfile ECS_CSV_FILE.

(** The loop of [_add_constraint]; [n] is [len(acceptable_items)] and [i]
    the index [enumerate] gives to the head of [items]. *)
Fixpoint _add_constraint_loop (n : Z) (i : Z) (items : list pyval)
    (CONSTRAINT : string) : string :=
  match items with
  | [] => CONSTRAINT
  | t :: rest =>
      let CONSTRAINT :=
        CONSTRAINT +:+ LF +:+ TAB +:+ TAB +:+ TAB +:+ SQ +:+ py_str t +:+ SQ +:+ "::bpchar" in
      let CONSTRAINT :=
        if bool_decide (i < n - 1)
        then CONSTRAINT +:+ ","
        else CONSTRAINT +:+ LF +:+ TAB +:+ TAB +:+ "]))" in
      _add_constraint_loop n (i + 1) rest CONSTRAINT
  end.

Definition _add_constraint (schema_name table_name varname : string)
    (data : list row) : result string :=
  let CONSTRAINT :=
    "CONSTRAINT " +:+ DQ +:+ schema_name +:+ "_" +:+ table_name +:+ "_" +:+ varname
      +:+ "_oneof" +:+ DQ +:+ LF +:+ TAB +:+ TAB +:+ "CHECK (" +:+ LF +:+ TAB +:+ TAB +:+ TAB
      +:+ DQ +:+ varname +:+ DQ +:+ " = ANY (ARRAY[" in
  let? column := for_each (getitem varname) data in
  let acceptable_items := set_iter column in
  Ok (_add_constraint_loop (Z.of_nat (length acceptable_items)) 0 acceptable_items CONSTRAINT).

Definition _make_primary_key (fields : list string) : string :=
  "PRIMARY KEY (" +:+ str_join ", " (dquoted <$> fields) +:+ ")".

Definition INDENT : string := "        ".

Definition COLUMNS : string :=
  LF +:+ INDENT +:+ DQ +:+ "ECS_Version" +:+ DQ +:+ " character(16) NOT NULL,"
  +:+ LF +:+ INDENT +:+ DQ +:+ "Indexed" +:+ DQ +:+ " boolean NOT NULL,"
  +:+ LF +:+ INDENT +:+ DQ +:+ "Field_Set" +:+ DQ +:+ " character(16) NOT NULL,"
  +:+ LF +:+ INDENT +:+ DQ +:+ "Field" +:+ DQ +:+ " character(96) NOT NULL,"
  +:+ LF +:+ INDENT +:+ DQ +:+ "Type" +:+ DQ +:+ " character(16) NOT NULL,"
  +:+ LF +:+ INDENT +:+ DQ +:+ "Level" +:+ DQ +:+ " character(16) NOT NULL,"
  +:+ LF +:+ INDENT +:+ DQ +:+ "Normalization" +:+ DQ +:+ " character(16),"
  +:+ LF +:+ INDENT +:+ DQ +:+ "Example" +:+ DQ +:+ " text,"
  +:+ LF +:+ INDENT +:+ DQ +:+ "Description" +:+ DQ +:+ " text,"
  +:+ LF +:+ INDENT.

(** The loop over [constrained_fields] in [make_sql]; [last_field] is
    [constrained_fields[-1]]. *)
Fixpoint make_sql_loop (schema_name table_name : string) (data : list row)
    (last_field : string) (todo : list string) (TABLE : string) : result string :=
  match todo with
  | [] => Ok TABLE
  | t :: rest =>
      let TABLE := TABLE +:+ LF +:+ TAB in
      let? c := _add_constraint schema_name table_name t data in
      let TABLE := TABLE +:+ c in
      let TABLE := if decide (t ≠ last_field) then TABLE +:+ "," else TABLE in
      let TABLE := TABLE +:+ TAB in
      make_sql_loop schema_name table_name data last_field rest TABLE
  end.

Definition make_sql (data : list row) (schema_name table_name table_owner : string)
    : result string :=
  let TABLE :=
    "CREATE TABLE IF NOT EXISTS " +:+ DQ +:+ schema_name +:+ DQ +:+ "." +:+ DQ
      +:+ table_name +:+ DQ +:+ " (" in
  let TABLE := TABLE +:+ COLUMNS in
  let TABLE :=
    TABLE +:+ _make_primary_key ["ECS_Version"; "Field_Set"; "Field"; "Type"; "Level"] in
  let TABLE := TABLE +:+ "," in
  let constrained_fields := ["Type"; "Field_Set"; "Level"] in
  let? last_field := index_last constrained_fields in
  let? TABLE :=
    make_sql_loop schema_name table_name data last_field constrained_fields TABLE in
  let TABLE := TABLE +:+ LF +:+ TAB +:+ ");" +:+ LF +:+ LF in
  let TABLE :=
    TABLE +:+ "ALTER TABLE IF EXISTS " +:+ DQ +:+ schema_name +:+ DQ +:+ "." +:+ DQ
      +:+ table_name +:+ DQ +:+ LF +:+ TAB +:+ "OWNER to " +:+ table_owner +:+ ";" in
  Ok TABLE.

Definition fields : list string :=
  ["ECS_Version"; "Indexed"; "Field_Set"; "Field"; "Type"; "Level";
   "Normalization"; "Example"; "Description"].

(** The [if]/[elif] chain of [make_sql_preload], on one value. *)
Definition prep_value (v : pyval) : string :=
  if decide (v = VNone) then "NULL"
  else if decide (v = VBool true) then "'true'"
  else if decide (v = VBool false) then "'false'"
  else match v with
       | VStr s =>
           if str_contains SQ s
           then SQ +:+ str_replace SQ "" s +:+ SQ
           else SQ +:+ py_str v +:+ SQ
       | _ => SQ +:+ py_str v +:+ SQ
       end.

(** [for k, v in d.items(): prepped[k] = ...], from [prepped = {}]. *)
Definition make_prepped (d : row) : list (string * string) :=
  foldl (fun prepped kv => dict_set kv.1 (prep_value kv.2) prepped) [] d.

Definition prepped_getitem (k : string) (prepped : list (string * string))
    : result string :=
  match dict_get k prepped with
  | Some s => Ok s
  | None => Raise (KeyError k)
  end.

(** The loop over [enumerate(data)] in [make_sql_preload]; [n] is
    [len(data)]. *)
Fixpoint make_sql_preload_loop (n : Z) (i : Z) (todo : list row)
    (INSERT_STATEMENT : string) : result string :=
  match todo with
  | [] => Ok INSERT_STATEMENT
  | d :: rest =>
      let prepped := make_prepped d in
      let? values := for_each (fun x => prepped_getitem x prepped) fields in
      let stmt := str_join ", " values in
      let INSERT_STATEMENT := INSERT_STATEMENT +:+ "(" in
      let INSERT_STATEMENT := INSERT_STATEMENT +:+ stmt in
      let INSERT_STATEMENT := INSERT_STATEMENT +:+ ")" in
      let INSERT_STATEMENT :=
        if bool_decide (i < n - 1) then INSERT_STATEMENT +:+ "," else INSERT_STATEMENT in
      let INSERT_STATEMENT := INSERT_STATEMENT +:+ LF +:+ TAB +:+ TAB in
      make_sql_preload_loop n (i + 1) rest INSERT_STATEMENT
  end.

Definition make_sql_preload (data : list row)
    (schema_name table_name table_owner : string) : result string :=
  let INSERT_STATEMENT :=
    LF +:+ LF +:+ "INSERT INTO " +:+ DQ +:+ schema_name +:+ DQ +:+ "." +:+ DQ
      +:+ table_name +:+ DQ +:+ LF +:+ TAB +:+ "(" +:+ LF +:+ TAB +:+ TAB in
  let INSERT_STATEMENT := INSERT_STATEMENT +:+ str_join ", " (dquoted <$> fields) in
  let INSERT_STATEMENT :=
    INSERT_STATEMENT +:+ LF +:+ TAB +:+ ")" +:+ LF +:+ TAB +:+ TAB +:+ "VALUES"
      +:+ LF +:+ TAB +:+ TAB in
  let? INSERT_STATEMENT :=
    make_sql_preload_loop (Z.of_nat (length data)) 0 data INSERT_STATEMENT in
  Ok (INSERT_STATEMENT +:+ ";").

Definition save_sql (sql : string) (destfile : pyobj) : M unit :=
  write_text (file_key destfile) sql.

(** The text [main] builds before it saves it. *)
Definition compile (data : list row) (schema_name table_name table_owner : string)
    : result string :=
  let? sql := make_sql data schema_name table_name table_owner in
  let? preload := make_sql_preload data schema_name table_name table_owner in
  Ok (sql +:+ preload).

Definition main (schema_name table_name table_owner : string) : M unit :=
  let* data := readfile in
  let* sql := lift (compile data schema_name table_name table_owner) in
  save_sql sql ECS_SQL_FILE.
End Compiler.

End CsvToSql.

(** * ecs-url-to-csv.py *)

Module UrlToCsv.

Section Rotator.
Context `{Env}.

Definition set_OLD (v : option snapshot) : M unit :=
  modify (set_CACHE (fun c => mkCache v (NEW c) (CHANGES c) (RAW c))).
Definition set_NEW (v : option snapshot) : M unit :=
  modify (set_CACHE (fun c => mkCache (OLD c) v (CHANGES c) (RAW c))).
Definition set_CHANGES (v : option (list row)) : M unit :=
  modify (set_CACHE (fun c => mkCache (OLD c) (NEW c) v (RAW c))).
Definition set_RAW (v : option string) : M unit :=
  modify (set_CACHE (fun c => mkCache (OLD c) (NEW c) (CHANGES c) v)).

(** Iterating, or indexing, a cache entry that is still [None]. *)
Definition not_None {A} (o : option A) : result A :=
  match o with
  | Some a => Ok a
  | None => Raise TypeError
  end.

Definition sys_exit {A} (code : Z) : M A := raise (SystemExit code).

Definition _download_data (url : string) : M string :=
  let* content := lift (urlopen url) in
  set_RAW (Some content);;;
  ret content.

Definition _save_downloaded_content (content : string) : M unit :=
  write_text (file_key ECS_CSV_TEMFILE) content.

Definition download (url : string) : M unit :=
  let* new_content := _download_data url in
  _save_downloaded_content new_content.

Definition _load_cache_old : M unit :=
  let* data := readfile ECS_CSV_FILE in
  set_OLD (Some data).

Definition _load_cache_new (url : string) : M unit :=
  download url;;;
  let* data := readfile ECS_CSV_TEMFILE in
  set_NEW (Some data).

Definition _check_new_cache_loaded : M unit :=
  let* w := get_world in
  match NEW (CACHE w) with
  | None => raise (Exception "Unable to find new content?")
  | Some _ => ret tt
  end.

Definition _init_changes_cache : M unit :=
  let* w := get_world in
  match CHANGES (CACHE w) with
  | None => set_CHANGES (Some [])
  | Some _ => ret tt
  end.

Definition init_cache (url : string) : M unit :=
  _load_cache_old;;;
  _load_cache_new url;;;
  _check_new_cache_loaded;;;
  _init_changes_cache.

(** The inner loop of [_ECS_Version_changed], for one [v]. *)
Fixpoint _ECS_Version_inner (v : pyval) (new_schema_items : list pyval)
    (has_changes : bool) : bool :=
  match new_schema_items with
  | [] => has_changes
  | vv :: rest =>
      let has_changes := if decide (v ≠ vv) then true else has_changes in
      if has_changes then has_changes
      else _ECS_Version_inner v rest has_changes
  end.

(** The outer loop of [_ECS_Version_changed]. *)
Fixpoint _ECS_Version_outer (old_schema_items new_schema_items : list pyval)
    (has_changes : bool) : bool :=
  match old_schema_items with
  | [] => has_changes
  | v :: rest =>
      let has_changes := _ECS_Version_inner v new_schema_items has_changes in
      if has_changes then has_changes
      else _ECS_Version_outer rest new_schema_items has_changes
  end.

Definition _ECS_Version_changed : M bool :=
  let* w := get_world in
  let has_changes := false in
  let* old := lift (not_None (OLD (CACHE w))) in
  let* old_versions := lift (for_each (getitem "ECS_Version") old) in
  let old_schema_items := set_iter old_versions in
  let* new := lift (not_None (NEW (CACHE w))) in
  let* new_versions := lift (for_each (getitem "ECS_Version") new) in
  let new_schema_items := set_iter new_versions in
  if decide (length old_schema_items ≠ length new_schema_items) then ret true
  else ret (_ECS_Version_outer old_schema_items new_schema_items has_changes).

Definition _length_changed : M bool :=
  let* w := get_world in
  let has_changes := false in
  match NEW (CACHE w) with
  | None => ret false
  | Some new =>
      match OLD (CACHE w) with
      | None => ret true
      | Some old =>
          let has_changes :=
            if decide (length old ≠ length new) then true else has_changes in
          ret has_changes
      end
  end.

(** [str(v)] of a row. *)
Definition repr_val (v : pyval) : string :=
  match v with
  | VStr s => py_repr s
  | _ => py_str v
  end.
Definition str_row (d : row) : string :=
  "{" +:+ str_join ", " ((fun kv => py_repr kv.1 +:+ ": " +:+ repr_val kv.2) <$> d) +:+ "}".

(** [{hash(str(v)): v for v in rows}] *)
Definition hashmap (rows : snapshot) : list (Z * row) :=
  dict_of ((fun v => (py_hash (str_row v), v)) <$> rows).

(** The loop of [_lines_changed] over [new_hashmap.items()]. *)
Fixpoint _lines_changed_loop (old_hashmap items : list (Z * row))
    (has_changes : bool) : bool :=
  match items with
  | [] => has_changes
  | (k, v) :: rest =>
      let has_changes :=
        if decide (k ∉ dict_keys old_hashmap) then true else has_changes in
      if has_changes then has_changes
      else _lines_changed_loop old_hashmap rest has_changes
  end.

Definition _lines_changed : M bool :=
  let* w := get_world in
  let has_changes := false in
  let* old := lift (not_None (OLD (CACHE w))) in
  let old_hashmap := hashmap old in
  let* new := lift (not_None (NEW (CACHE w))) in
  let new_hashmap := hashmap new in
  ret (_lines_changed_loop old_hashmap new_hashmap has_changes).

Definition content_has_changed : M bool :=
  let has_changes := false in
  let* length_changed := _length_changed in
  if length_changed then ret true else
  let* version_changed := _ECS_Version_changed in
  if version_changed then ret true else
  let* lines_changed := _lines_changed in
  if lines_changed then ret true else
  ret has_changes.

Definition update_content : M unit :=
  let* w := get_world in
  let* old := lift (not_None (OLD (CACHE w))) in
  let* last_row := lift (index_last old) in
  let* oldfile_schema := lift (getitem "ECS_Version" last_row) in
  let* csv_name := lift (attr_name ECS_CSV_FILE) in
  let oldfile_name :=
    PStr (str_replace ".csv" ("." +:+ py_str oldfile_schema +:+ ".csv") csv_name) in
  let oldfile := PPath "data/Elastic" (file_key oldfile_name) in
  let* shown_name := lift (attr_name oldfile_name) in
  print (Text ("Moving old schema (" +:+ py_str oldfile_schema +:+ ") to " +:+ shown_name));;;
  let* oldcontent := read_text (file_key ECS_CSV_FILE) in
  write_text (file_key oldfile) oldcontent;;;
  let* w' := get_world in
  write_text (file_key ECS_CSV_FILE) "";;;
  let* raw := lift (not_None (RAW (CACHE w'))) in
  write_text (file_key ECS_CSV_FILE) raw;;;
  print (Text "Finished updating content").

Definition cleanup (verbose : bool) : M unit :=
  let* there := path_exists (file_key ECS_CSV_TEMFILE) in
  (if there
   then (if verbose
         then print (Text ("Removing tempfile: " +:+ file_key ECS_CSV_TEMFILE))
         else ret tt);;;
        os_remove (file_key ECS_CSV_TEMFILE)
   else ret tt);;;
  if verbose then print (Text "Cleanup complete") else ret tt.

Definition on_Exception (e : exn) : option (M bool) :=
  if is_Exception e
  then Some (print (exn_line e);;; sys_exit 1)
  else None.

Definition main (url : string) : M unit :=
  cleanup false;;;
  init_cache url;;;
  let* has_changes := try_except content_has_changed on_Exception in
  (if has_changes
   then print (Text "Content changes detected, saving new schema...");;;
        update_content
   else ret tt);;;
  cleanup true;;;
  sys_exit 0.
End Rotator.

End UrlToCsv.

(** * A concrete environment

    Used to run the program on explicit inputs: CSV text without quoting
    (records end at a line feed, fields at a comma, an empty record is the
    empty list, as [csv.reader] gives for such text), sets iterated in order
    of first insertion, [repr] as single quotes around the text, and the
    length of a string as its hash. *)

Fixpoint split_on (sep : ascii) (s : string) (cur : string) : list string :=
  match s with
  | EmptyString => [cur]
  | String c s' =>
      if decide (c = sep) then cur :: split_on sep s' ""
      else split_on sep s' (cur +:+ String c "")
  end.

Definition csv_lines (text : string) : list string :=
  let parts := split_on "010"%char text "" in
  match last parts with
  | Some EmptyString => removelast parts
  | _ => parts
  end.

Definition csv_record (l : string) : list string :=
  match l with
  | EmptyString => []
  | _ => split_on ","%char l ""
  end.

Definition csv_plain (text : string) : list (list string) :=
  csv_record <$> csv_lines text.

Definition plain_env (served : result string) : Env :=
  {| csv_reader := csv_plain;
     set_iter := remove_dups;
     py_hash := fun s => Z.of_nat (String.length s);
     py_repr := fun s => SQ +:+ s +:+ SQ;
     urlopen := fun _ => served |}.

Definition world_of (files : list (string * string)) : World :=
  mkWorld (list_to_map files) (mkCache None None None None) [].

Definition HEADER : string :=
  "ECS_Version,Indexed,Field_Set,Field,Type,Level,Normalization,Example,Description".

(** * Properties the claims speak of *)

(** A row on which the cleaning loop finds the three keys it reads. *)
Definition supplies_keys (d : row) : Prop :=
  is_Some (dict_get "Indexed" d) ∧
  is_Some (dict_get "Normalization" d) ∧
  is_Some (dict_get "Example" d).

(** What cleaning does to a freshly formatted row [d], giving [d']. *)
Definition cleaned (d d' : row) : Prop :=
  ∃ i n e : string,
    dict_get "Indexed" d = Some (VStr i) ∧
    dict_get "Normalization" d = Some (VStr n) ∧
    dict_get "Example" d = Some (VStr e) ∧
    dict_get "Indexed" d' = Some (VBool (bool_decide (i ≠ ""))) ∧
    dict_get "Normalization" d' = Some (if decide (n = "") then VNone else VStr n) ∧
    dict_get "Example" d' = Some (if decide (e = "") then VNone else VStr e) ∧
    (∀ k, k ∉ ["Indexed"; "Normalization"; "Example"] → dict_get k d' = dict_get k d) ∧
    dict_keys d' = dict_keys d.

(** The first record is a header of the expected width. *)
Definition right_header (rawfile : list (list string)) : Prop :=
  ∃ header, rawfile !! 0%nat = Some header ∧ length header = ECS_CSV_COLUMN_COUNT.

(** The rows [_format_data] builds from the records after the header. *)
Definition formatted_rows (rawfile : list (list string)) : list row :=
  match rawfile with
  | [] => []
  | header :: records => (fun l => dict_of (zip header (VStr <$> l))) <$> records
  end.

(** A Python dict holds each key once. *)
Definition is_dict {V} (d : list (string * V)) : Prop := NoDup (dict_keys d).

(** A row that has all nine columns the insert statement lists. *)
Definition has_fields (d : row) : Prop :=
  Forall (fun x => is_Some (dict_get x d)) CsvToSql.fields.

(** ** The rendering of values, as the specification words it *)

(** The text with every single quote taken out. *)
Fixpoint strip_quotes (s : string) : string :=
  match s with
  | EmptyString => EmptyString
  | String c s' =>
      if decide (c = "'"%char) then strip_quotes s' else String c (strip_quotes s')
  end.

Definition spec_render_value (v : pyval) : string :=
  match v with
  | VNone => "NULL"
  | VBool true => "'true'"
  | VBool false => "'false'"
  | VStr s => SQ +:+ strip_quotes s +:+ SQ
  end.

Definition spec_render_row (d : row) : string :=
  "(" +:+ str_join ", "
            ((fun x => spec_render_value (default VNone (dict_get x d))) <$> CsvToSql.fields)
      +:+ ")".

(** The rows one after the other: a comma after each but the last, then a
    line feed and two tabs after each. *)
Fixpoint spec_values (rows : list string) : string :=
  match rows with
  | [] => ""
  | r :: rest =>
      r +:+ (match rest with [] => "" | _ => "," end) +:+ LF +:+ TAB +:+ TAB
        +:+ spec_values rest
  end.

Definition spec_insert_head (schema_name table_name : string) : string :=
  LF +:+ LF +:+ "INSERT INTO " +:+ DQ +:+ schema_name +:+ DQ +:+ "." +:+ DQ
     +:+ table_name +:+ DQ +:+ LF +:+ TAB +:+ "(" +:+ LF +:+ TAB +:+ TAB
     +:+ str_join ", " (dquoted <$> CsvToSql.fields)
     +:+ LF +:+ TAB +:+ ")" +:+ LF +:+ TAB +:+ TAB +:+ "VALUES" +:+ LF +:+ TAB +:+ TAB.

Definition spec_insert (data : list row) (schema_name table_name : string) : string :=
  spec_insert_head schema_name table_name
    +:+ spec_values (spec_render_row <$> data) +:+ ";".

(** ** Bracket structure of SQL text *)

(** Where a scan of SQL text is: in code, inside a single-quoted literal or
    inside a double-quoted identifier. *)
Inductive lex_mode : Type := InCode | InLiteral | InIdentifier.

(** Every round and square bracket outside quotes is closed by its own kind,
    in order, and no quote is left open. *)
Fixpoint balanced_from (m : lex_mode) (stack : list ascii) (s : string) : bool :=
  match s with
  | EmptyString =>
      match m, stack with
      | InCode, [] => true
      | _, _ => false
      end
  | String c s' =>
      match m with
      | InLiteral =>
          if decide (c = "'"%char) then balanced_from InCode stack s'
          else balanced_from InLiteral stack s'
      | InIdentifier =>
          if decide (c = "034"%char) then balanced_from InCode stack s'
          else balanced_from InIdentifier stack s'
      | InCode =>
          if decide (c = "'"%char) then balanced_from InLiteral stack s'
          else if decide (c = "034"%char) then balanced_from InIdentifier stack s'
          else if decide (c = "("%char ∨ c = "["%char) then balanced_from InCode (c :: stack) s'
          else if decide (c = ")"%char) then
            match stack with
            | o :: stack' => if decide (o = "("%char) then balanced_from InCode stack' s' else false
            | [] => false
            end
          else if decide (c = "]"%char) then
            match stack with
            | o :: stack' => if decide (o = "["%char) then balanced_from InCode stack' s' else false
            | [] => false
            end
          else balanced_from InCode stack s'
      end
  end.

Definition brackets_balanced (s : string) : bool := balanced_from InCode [] s.

(** ** Worlds and inputs the theorems speak of *)

(** The world after [print(l)]. *)
Definition printed (l : line) (w : World) : World :=
  set_stdout (fun out => (out ++ [l])%list) w.

(** Input that loads as a snapshot with rows: at least two records under a
    header of the expected width. *)
Definition usable (rawfile : list (list string)) : Prop :=
  (1 < length rawfile)%nat ∧ right_header rawfile.

(** What [readfile] returns on a file with this text. *)
Definition read_rows `{Env} (content : string) : result snapshot :=
  let rawfile := csv_reader content in
  if bool_decide (1 < length rawfile)%nat then
    match rawfile with
    | [] => Raise IndexError
    | header :: _ =>
        if bool_decide (length header = ECS_CSV_COLUMN_COUNT)
        then _clean_data (formatted_rows rawfile)
        else Ok []
    end
  else Ok [].

(** ** Concrete inputs *)

Definition sample_row (version indexed type : string) : row :=
  [("ECS_Version", VStr version); ("Indexed", VBool (py_bool (VStr indexed)));
   ("Field_Set", VStr "host"); ("Field", VStr "host.name"); ("Type", VStr type);
   ("Level", VStr "core"); ("Normalization", VNone); ("Example", VNone);
   ("Description", VStr "Hostname")].

(** One data row under the header of the ECS file. *)
Definition ONE_ROW_TEXT : string :=
  HEADER +:+ LF +:+ "8.0.0,False,host,host.name,keyword,core,,,Hostname" +:+ LF.

(** A data row of a single field under the header of the ECS file. *)
Definition SHORT_ROW_TEXT : string := HEADER +:+ LF +:+ "8.0.0" +:+ LF.

(** Nine columns, none of them named [ECS_Version]. *)
Definition NO_VERSION_TEXT : string :=
  "Version,Indexed,Field_Set,Field,Type,Level,Normalization,Example,Description"
    +:+ LF +:+ "8.0.0,true,host,host.name,keyword,core,,,Hostname" +:+ LF.

(** The header alone. *)
Definition HEADER_ONLY_TEXT : string := HEADER +:+ LF.

(** A process whose module dictionary holds these two snapshots. *)
Definition world_with (old new : snapshot) : World :=
  mkWorld ∅ (mkCache (Some old) (Some new) None None) [].

(** ** The text of a constraint, piece by piece *)

Definition constraint_head (schema_name table_name varname : string) : string :=
  "CONSTRAINT " +:+ DQ +:+ schema_name +:+ "_" +:+ table_name +:+ "_" +:+ varname
    +:+ "_oneof" +:+ DQ +:+ LF +:+ TAB +:+ TAB +:+ "CHECK (" +:+ LF +:+ TAB +:+ TAB
    +:+ TAB +:+ DQ +:+ varname +:+ DQ +:+ " = ANY (ARRAY[".

Definition constraint_item (t : pyval) : string :=
  LF +:+ TAB +:+ TAB +:+ TAB +:+ SQ +:+ py_str t +:+ SQ +:+ "::bpchar".

Definition constraint_tail : string := LF +:+ TAB +:+ TAB +:+ "]))".

(** A row that has the three columns [make_sql] builds constraints from. *)
Definition has_constrained (d : row) : Prop :=
  Forall (fun x => is_Some (dict_get x d)) ["Type"; "Field_Set"; "Level"].

(** The hashes [_lines_changed] computes for the rows of a snapshot. *)
Definition row_hashes `{Env} (rows : snapshot) : list Z :=
  (fun v => py_hash (UrlToCsv.str_row v)) <$> rows.

(** A computation that leaves every file but the scratch file as it was,
    whatever its outcome. *)
Definition keeps_other_files {A} (c : M A) : Prop :=
  ∀ (w : World) (k : string),
    k ≠ file_key ECS_CSV_TEMFILE → fs (c w).2 !! k = fs w !! k.

(** A second concrete environment, iterating sets in the opposite order. *)
Definition reversed_env (served : result string) : Env :=
  {| csv_reader := csv_plain;
     set_iter := fun l => reverse (remove_dups l);
     py_hash := fun s => Z.of_nat (String.length s);
     py_repr := fun s => SQ +:+ s +:+ SQ;
     urlopen := fun _ => served |}.

(** Two data rows of different types under the header of the ECS file. *)
Definition TWO_ROWS_TEXT : string :=
  HEADER +:+ LF +:+ "8.0.0,true,host,host.name,keyword,core,,,Hostname"
         +:+ LF +:+ "8.0.0,true,host,host.name,long,core,,,Hostname" +:+ LF.

(** * Dictionaries *)

Section DictFacts.
Context {K V : Type} `{EqDecision K}.
Implicit Types (k : K) (v : V) (d : list (K * V)).

Lemma dict_get_set k k' v d :
  dict_get k (dict_set k' v d) = if decide (k = k') then Some v else dict_get k d.
Proof.
  induction d as [|[k0 v0] d IH]; simpl.
  - repeat case_decide; congruence.
  - destruct (decide (k' = k0)) as [->|Hne]; simpl.
    + repeat case_decide; congruence.
    + rewrite IH. repeat case_decide; congruence.
Qed.

Lemma dict_get_set_eq k v d : dict_get k (dict_set k v d) = Some v.
Proof. rewrite dict_get_set. by case_decide. Qed.

Lemma dict_get_set_ne k k' v d : k ≠ k' → dict_get k (dict_set k' v d) = dict_get k d.
Proof. intros. rewrite dict_get_set. by case_decide. Qed.

Lemma dict_keys_set_present k v d :
  is_Some (dict_get k d) → dict_keys (dict_set k v d) = dict_keys d.
Proof.
  unfold dict_keys. induction d as [|[k0 v0] d IH]; simpl.
  - by intros [? ?].
  - destruct (decide (k = k0)) as [->|Hne]; simpl; [done|].
    intros Hs. f_equal. by apply IH.
Qed.

Lemma dict_keys_set_absent k v d :
  dict_get k d = None → dict_keys (dict_set k v d) = (dict_keys d ++ [k])%list.
Proof.
  unfold dict_keys. induction d as [|[k0 v0] d IH]; simpl; [done|].
  destruct (decide (k = k0)) as [->|Hne]; simpl; [done|].
  intros Hs. f_equal. by apply IH.
Qed.

Lemma dict_get_None k d : dict_get k d = None ↔ k ∉ dict_keys d.
Proof.
  unfold dict_keys. induction d as [|[k0 v0] d IH]; simpl.
  - split; [intros _; apply not_elem_of_nil | done].
  - rewrite not_elem_of_cons. destruct (decide (k = k0)) as [->|Hne].
    + split; [done | intros [? _]; done].
    + rewrite IH. tauto.
Qed.

Lemma dict_get_is_Some k d : is_Some (dict_get k d) ↔ k ∈ dict_keys d.
Proof.
  rewrite <-not_eq_None_Some, dict_get_None.
  destruct (decide (k ∈ dict_keys d)); tauto.
Qed.

Lemma dict_set_is_dict k v d : NoDup (dict_keys d) → NoDup (dict_keys (dict_set k v d)).
Proof.
  intros Hd. destruct (dict_get k d) eqn:E.
  - rewrite dict_keys_set_present; eauto.
  - rewrite dict_keys_set_absent by done.
    apply NoDup_app. split_and!; [done | | apply NoDup_singleton].
    intros x Hx ->%list_elem_of_singleton. by apply dict_get_None in E.
Qed.

Lemma dict_get_values (P : V → Prop) k v d :
  Forall (fun kv => P kv.2) d → dict_get k d = Some v → P v.
Proof.
  induction 1 as [|[k0 v0] d HP _ IH]; simpl; [done|].
  case_decide; [by intros [= <-] | done].
Qed.

Lemma dict_set_values (P : V → Prop) k v d :
  P v → Forall (fun kv => P kv.2) d → Forall (fun kv => P kv.2) (dict_set k v d).
Proof.
  intros Hv. induction 1 as [|[k0 v0] d HP Hd IH]; simpl.
  - by constructor.
  - case_decide; constructor; simpl in *; done.
Qed.
End DictFacts.

Section DictOf.
Context {K V : Type} `{EqDecision K}.
Implicit Types (k : K) (v : V) (d : list (K * V)).

Lemma dict_fold_is_dict (pairs d : list (K * V)) :
  NoDup (dict_keys d) →
  NoDup (dict_keys (foldl (fun d kv => dict_set kv.1 kv.2 d) d pairs)).
Proof.
  revert d. induction pairs as [|[k v] pairs IH]; intros d Hd; simpl; [done|].
  apply IH. by apply dict_set_is_dict.
Qed.

Lemma dict_of_is_dict (pairs : list (K * V)) : NoDup (dict_keys (dict_of pairs)).
Proof. apply dict_fold_is_dict. constructor. Qed.

Lemma dict_fold_values (P : V → Prop) (pairs d : list (K * V)) :
  Forall (fun kv => P kv.2) pairs → Forall (fun kv => P kv.2) d →
  Forall (fun kv => P kv.2) (foldl (fun d kv => dict_set kv.1 kv.2 d) d pairs).
Proof.
  intros Hp. revert d. induction Hp as [|[k v] pairs Hv _ IH]; intros d Hd; simpl; [done|].
  apply IH. by apply dict_set_values.
Qed.

Lemma dict_fold_keys k (pairs d : list (K * V)) :
  k ∈ dict_keys (foldl (fun d kv => dict_set kv.1 kv.2 d) d pairs) ↔
  k ∈ dict_keys d ∨ k ∈ pairs.*1.
Proof.
  revert d. induction pairs as [|[k0 v0] pairs IH]; intros d; simpl.
  - rewrite elem_of_nil. tauto.
  - rewrite IH, elem_of_cons, <-!dict_get_is_Some, dict_get_set.
    case_decide as Hk.
    + subst. split; intros _; [right; by left | left; eauto].
    + split; [intros [?|?]; auto | intros [?|[?|?]]; auto; done].
Qed.

Lemma dict_of_keys k (pairs : list (K * V)) :
  k ∈ dict_keys (dict_of pairs) ↔ k ∈ pairs.*1.
Proof.
  unfold dict_of. rewrite dict_fold_keys. unfold dict_keys. simpl.
  rewrite elem_of_nil. tauto.
Qed.
End DictOf.

Lemma zip_keys {A B} (h : list A) (l : list B) : (zip h l).*1 = take (length l) h.
Proof.
  revert l. induction h as [|a h IH]; intros [|b l]; simpl; try done.
  f_equal. apply IH.
Qed.

(** * Loops that may raise *)

Section ForEach.
Context {A B : Type} (f : A → result B).

Lemma for_each_Ok l ys :
  for_each f l = Ok ys ↔ Forall2 (fun x y => f x = Ok y) l ys.
Proof.
  revert ys. induction l as [|x l IH]; intros ys; simpl.
  - split; [intros [= <-]; constructor | by inversion 1].
  - destruct (f x) as [y|e] eqn:Ex; simpl.
    + destruct (for_each f l) as [ys'|e] eqn:El; simpl.
      * split.
        -- intros [= <-]. constructor; [done | by apply IH].
        -- inversion 1 as [|? ? ? ? Hy Hl]; subst.
           apply IH in Hl. congruence.
      * split; [done|]. inversion 1 as [|? ? ? ? Hy Hl]; subst.
        apply IH in Hl. congruence.
    + split; [done|]. inversion 1; congruence.
Qed.

Lemma for_each_total l :
  Forall (fun x => ∃ y, f x = Ok y) l → ∃ ys, for_each f l = Ok ys.
Proof.
  induction 1 as [|x l [y Hy] _ [ys Hys]]; simpl; [by eexists|].
  rewrite Hy, Hys. by eexists.
Qed.

Lemma for_each_length l ys : for_each f l = Ok ys → length ys = length l.
Proof. rewrite for_each_Ok. intros Hl. symmetry. by eapply Forall2_length. Qed.

Lemma for_each_first_raise pre x post e :
  Forall (fun x => ∃ y, f x = Ok y) pre → f x = Raise e →
  for_each f (pre ++ x :: post) = Raise e.
Proof.
  intros Hpre Hx. induction Hpre as [|a pre [y Hy] _ IH]; simpl.
  - by rewrite Hx.
  - by rewrite Hy, IH.
Qed.

Lemma for_each_some_raise l x e :
  x ∈ l → f x = Raise e →
  ∃ x' e', x' ∈ l ∧ f x' = Raise e' ∧ for_each f l = Raise e'.
Proof.
  induction l as [|a l IH]; [by intros ?%elem_of_nil|].
  intros Hin Hx. simpl. destruct (f a) as [y|e0] eqn:Ea.
  - apply elem_of_cons in Hin as [->|Hin]; [congruence|].
    destruct (IH Hin Hx) as (x' & e' & Hx' & He' & ->).
    exists x', e'. split_and!; [by right | done | done].
  - exists a, e0. split_and!; [by left | done | done].
Qed.
End ForEach.

(** * The reader *)

Lemma clean_row_no_Indexed (d : row) :
  dict_get "Indexed" d = None → _clean_data_row d = Raise (KeyError "Indexed").
Proof. intros Hd. unfold _clean_data_row, getitem. by rewrite Hd. Qed.

Lemma clean_row_raise_inv (d : row) (e : exn) :
  _clean_data_row d = Raise e →
  ∃ k, e = KeyError k ∧ k ∈ ["Indexed"; "Normalization"; "Example"].
Proof.
  unfold _clean_data_row, getitem.
  destruct (dict_get "Indexed" d) as [i|]; simpl;
    [|intros [= <-]; eexists; split; [done | set_solver]].
  destruct (dict_get "Normalization" _) as [n|]; simpl;
    [|intros [= <-]; eexists; split; [done | set_solver]].
  destruct (dict_get "Example" _) as [x|]; simpl;
    [done | intros [= <-]; eexists; split; [done | set_solver]].
Qed.

Lemma clean_row_total (d : row) :
  supplies_keys d → ∃ d', _clean_data_row d = Ok d'.
Proof.
  intros ([i Hi] & [n Hn] & [x Hx]). unfold _clean_data_row, getitem.
  rewrite Hi. simpl. rewrite dict_get_set_ne, Hn by done. simpl.
  case_decide; rewrite ?dict_get_set_ne, ?Hx by done; simpl; by eexists.
Qed.

Lemma decide_VStr {A} (s t : string) (a b : A) :
  (if decide (VStr s = VStr t) then a else b) = (if decide (s = t) then a else b).
Proof. repeat case_decide; congruence. Qed.

Lemma clean_row_cleaned (d : row) (i n e : string) :
  dict_get "Indexed" d = Some (VStr i) →
  dict_get "Normalization" d = Some (VStr n) →
  dict_get "Example" d = Some (VStr e) →
  ∃ d', _clean_data_row d = Ok d' ∧ cleaned d d'.
Proof.
  intros Hi Hn He. unfold _clean_data_row, getitem.
  rewrite Hi. simpl. rewrite dict_get_set_ne, Hn by done. simpl.
  rewrite decide_VStr.
  set (d1 := dict_set "Indexed" _ d).
  set (d2 := if decide (n = "") then _ else d1).
  assert (H2 : dict_get "Example" d2 = Some (VStr e)).
  { subst d1 d2. case_decide; by rewrite !dict_get_set_ne by done. }
  rewrite H2. simpl. rewrite decide_VStr.
  eexists. split; [reflexivity|].
  exists i, n, e. split_and!; try done.
  - subst d1 d2. repeat case_decide;
      rewrite ?(dict_get_set_ne "Indexed" "Example"),
              ?(dict_get_set_ne "Indexed" "Normalization") by done;
      rewrite dict_get_set_eq; by rewrite bool_decide_not.
  - subst d1 d2. repeat case_decide;
      rewrite ?(dict_get_set_ne "Normalization" "Example") by done;
      rewrite ?dict_get_set_eq; try done;
      by rewrite (dict_get_set_ne "Normalization" "Indexed") by done.
  - subst d1 d2. repeat case_decide; rewrite ?dict_get_set_eq; try done;
      by rewrite !dict_get_set_ne by done.
  - intros k Hk.
    assert (k ≠ "Indexed" ∧ k ≠ "Normalization" ∧ k ≠ "Example") as (? & ? & ?).
    { split_and!; intros ->; apply Hk; set_solver. }
    subst d1 d2. repeat case_decide; by rewrite !dict_get_set_ne by done.
  - assert (H1 : dict_keys d1 = dict_keys d).
    { subst d1. apply dict_keys_set_present. eauto. }
    assert (H2' : dict_keys d2 = dict_keys d).
    { subst d2. case_decide; [|done]. rewrite dict_keys_set_present; [done|].
      subst d1. rewrite dict_get_set_ne by done. eauto. }
    case_decide; [|done]. rewrite dict_keys_set_present; [done|]. eauto.
Qed.

Lemma format_data_eval (rawfile : list (list string)) :
  _format_data rawfile = Ok (formatted_rows rawfile).
Proof.
  destruct rawfile as [|header records]; [done|].
  unfold _format_data. simpl. rewrite drop_0.
  induction records as [|l records IH]; simpl; [done|].
  by rewrite IH.
Qed.

Lemma formatted_rows_length (rawfile : list (list string)) :
  length (formatted_rows rawfile) = (length rawfile - 1)%nat.
Proof.
  destruct rawfile as [|header records]; simpl; [done|].
  rewrite length_fmap. lia.
Qed.

Lemma formatted_rows_text (rawfile : list (list string)) :
  Forall (Forall (fun kv : string * pyval => ∃ s, kv.2 = VStr s)) (formatted_rows rawfile).
Proof.
  destruct rawfile as [|header records]; simpl; [constructor|].
  apply Forall_fmap, Forall_forall. intros l _. simpl.
  apply (dict_fold_values (fun v => ∃ s, v = VStr s)); [|constructor].
  apply Forall_forall. intros [k v] Hkv. simpl.
  apply elem_of_zip_r, list_elem_of_fmap in Hkv as (s & -> & _). by eexists.
Qed.

Lemma formatted_rows_is_dict (rawfile : list (list string)) :
  Forall is_dict (formatted_rows rawfile).
Proof.
  destruct rawfile as [|header records]; simpl; [constructor|].
  apply Forall_fmap, Forall_forall. intros l _. apply dict_of_is_dict.
Qed.

Lemma clean_data_cleaned (data : list row) :
  Forall (Forall (fun kv : string * pyval => ∃ s, kv.2 = VStr s)) data →
  Forall supplies_keys data →
  ∃ data', _clean_data data = Ok data' ∧ Forall2 cleaned data data'.
Proof.
  unfold _clean_data. induction 1 as [|d data Hd _ IH]; intros Hk.
  - exists []. split; [done | constructor].
  - apply Forall_cons in Hk as [([i Hi] & [n Hn] & [e He]) Hk].
    destruct (IH Hk) as (data' & Hdata & Hall).
    pose proof (dict_get_values (fun v => ∃ s, v = VStr s) _ _ _ Hd Hi) as [si ->].
    pose proof (dict_get_values (fun v => ∃ s, v = VStr s) _ _ _ Hd Hn) as [sn ->].
    pose proof (dict_get_values (fun v => ∃ s, v = VStr s) _ _ _ Hd He) as [se ->].
    destruct (clean_row_cleaned d si sn se Hi Hn He) as (d' & Hd' & Hc).
    exists (d' :: data'). simpl. rewrite Hd', Hdata. split; [done | by constructor].
Qed.

Lemma readfile_eval `{Env} (w : World) (file : pyobj) (content : string) :
  fs w !! file_key file = Some content →
  readfile file w =
    let rawfile := csv_reader content in
    if bool_decide (1 < length rawfile)%nat then
      match rawfile with
      | [] => (Raise IndexError, w)
      | header :: _ =>
          if bool_decide (length header = ECS_CSV_COLUMN_COUNT) then
            match _clean_data (formatted_rows rawfile) with
            | Ok data => (Ok data, w)
            | Raise e => (Raise e, w)
            end
          else (Ok [], printed (WrongHeaderLength (length header) ECS_CSV_COLUMN_COUNT) w)
      end
    else (Ok [], printed (NoDataFound (length rawfile)) w).
Proof.
  intros Hf. unfold readfile, _read_data, read_text, bind at 1 2. rewrite Hf.
  unfold ret at 1. simpl.
  unfold _has_data, try_except, bind, py_assert.
  case_bool_decide as Hlen; simpl; [|done].
  unfold _has_right_column_number, try_except, bind, lift, py_assert.
  destruct (csv_reader content) as [|header records] eqn:Eraw; simpl; [done|].
  case_bool_decide as Hcol; simpl; [|done].
  rewrite format_data_eval. simpl.
  by destruct (_clean_data _).
Qed.

Lemma readfile_missing `{Env} (w : World) (file : pyobj) :
  fs w !! file_key file = None →
  readfile file w = (Raise (FileNotFoundError (file_key file)), w).
Proof.
  intros Hf. unfold readfile, _read_data, read_text, bind at 1 2. by rewrite Hf.
Qed.

Lemma readfile_keeps_files `{Env} (w : World) (file : pyobj) :
  fs (readfile file w).2 = fs w ∧ CACHE (readfile file w).2 = CACHE w.
Proof.
  destruct (fs w !! file_key file) as [content|] eqn:Hf.
  - rewrite (readfile_eval w file content Hf). simpl.
    repeat case_match; simpl; auto.
  - rewrite (readfile_missing w file Hf). auto.
Qed.

(** C8: every row the reader has formatted, and on which cleaning finds its
    three keys, comes out of [_clean_data] with [Indexed] turned into the
    boolean "the raw text is not empty" (so the text [False] gives true and
    only the empty text gives false), with [Normalization] and [Example]
    turned into [None] exactly when their raw text is empty, and with every
    other field, and the order of the keys, unchanged. *)
Theorem clean_data_coerces (rawfile : list (list string)) (data : list row) :
  _format_data rawfile = Ok data →
  Forall supplies_keys data →
  ∃ data', _clean_data data = Ok data' ∧ Forall2 cleaned data data'.
Proof.
  rewrite format_data_eval. intros [= <-] Hkeys.
  apply clean_data_cleaned; [apply formatted_rows_text | done].
Qed.

(** C9, as amended: on a file that exists, [readfile] returns the empty
    snapshot and prints one diagnostic when the input has fewer than two
    records or its header is not nine columns wide; otherwise, provided every
    data row supplies the keys [Indexed], [Normalization] and [Example], it
    prints nothing and returns one cleaned dict per data row. *)
Theorem readfile_fails_soft `{Env} (w : World) (file : pyobj) (content : string) :
  fs w !! file_key file = Some content →
  (right_header (csv_reader content) →
   Forall supplies_keys (formatted_rows (csv_reader content))) →
  ∃ data out,
    readfile file w = (Ok data, mkWorld (fs w) (CACHE w) (stdout w ++ out)) ∧
    ((length (csv_reader content) < 2)%nat →
       data = [] ∧ out = [NoDataFound (length (csv_reader content))]) ∧
    ((2 ≤ length (csv_reader content))%nat → ¬ right_header (csv_reader content) →
       data = [] ∧ ∃ n, out = [WrongHeaderLength n ECS_CSV_COLUMN_COUNT]) ∧
    ((2 ≤ length (csv_reader content))%nat → right_header (csv_reader content) →
       out = [] ∧ length data = (length (csv_reader content) - 1)%nat ∧
       Forall2 cleaned (formatted_rows (csv_reader content)) data).
Proof.
  intros Hf Hkeys. rewrite (readfile_eval w file content Hf). simpl.
  case_bool_decide as Hlen.
  - destruct (csv_reader content) as [|header records] eqn:Eraw; [simpl in Hlen; lia|].
    case_bool_decide as Hcol.
    + assert (Hr : right_header (header :: records)) by (by exists header).
      destruct (clean_data_cleaned (formatted_rows (header :: records)))
        as (data & Hdata & Hall); [apply formatted_rows_text | by apply Hkeys |].
      rewrite Hdata. exists data, []. split_and!.
      * rewrite app_nil_r. by destruct w.
      * intros ?. lia.
      * intros _ Hn. by destruct Hn.
      * intros _ _. split_and!; [done | | done].
        apply Forall2_length in Hall. rewrite <-Hall. apply formatted_rows_length.
    + exists [], [WrongHeaderLength (length header) ECS_CSV_COLUMN_COUNT]. split_and!.
      * done.
      * intros ?. lia.
      * intros _ _. split; [done | by eexists].
      * intros _ (h & [= <-] & Hh). done.
  - exists [], [NoDataFound (length (csv_reader content))]. split_and!.
    + done.
    + done.
    + intros ?. lia.
    + intros ?. lia.
Qed.

(** C10: when the header is nine columns wide and some data row is too
    short to reach the column [Indexed] (with the header of the ECS file, a
    row of fewer than two fields), [readfile] does not return the empty
    snapshot: it raises [KeyError], for [Indexed] itself when every earlier
    row supplies the keys the cleaning loop reads. *)
Theorem readfile_short_row_raises `{Env} (w : World) (file : pyobj) (content : string)
    (header : list string) (pre : list (list string)) (l : list string)
    (post : list (list string)) :
  fs w !! file_key file = Some content →
  csv_reader content = header :: pre ++ l :: post →
  length header = ECS_CSV_COLUMN_COUNT →
  "Indexed" ∉ take (length l) header →
  ∃ k, readfile file w = (Raise (KeyError k), w) ∧
       k ∈ ["Indexed"; "Normalization"; "Example"] ∧
       (Forall supplies_keys (formatted_rows (header :: pre)) → k = "Indexed").
Proof.
  intros Hf Hraw Hcol Hshort. rewrite (readfile_eval w file content Hf), Hraw. simpl.
  rewrite bool_decide_true by (rewrite length_app; simpl; lia).
  rewrite bool_decide_true by done.
  set (F := fun l : list string => dict_of (zip header (VStr <$> l))).
  assert (Hl : _clean_data_row (F l) = Raise (KeyError "Indexed")).
  { apply clean_row_no_Indexed, dict_get_None. subst F. simpl.
    rewrite dict_of_keys, zip_keys, length_fmap. done. }
  rewrite fmap_app, fmap_cons. unfold _clean_data.
  destruct (for_each_some_raise _clean_data_row ((F <$> pre) ++ F l :: (F <$> post))%list (F l)
              (KeyError "Indexed")) as (d' & e' & _ & He' & Hall);
    [set_solver | done |].
  destruct (clean_row_raise_inv d' e' He') as (k & -> & Hk).
  exists k. rewrite Hall. split_and!; [done | done |].
  intros Hpre.
  rewrite (for_each_first_raise _ _ _ _ (KeyError "Indexed")) in Hall; [congruence | | done].
  eapply Forall_impl; [exact Hpre|]. intros d Hd. by apply clean_row_total.
Qed.

(** * Strings *)

Lemma str_app_cons (x : ascii) (a b : string) : String x a +:+ b = String x (a +:+ b).
Proof. reflexivity. Qed.

Lemma str_app_assoc (a b c : string) : (a +:+ b) +:+ c = a +:+ (b +:+ c).
Proof. induction a as [|x a IH]; [reflexivity|]. by rewrite !str_app_cons, IH. Qed.

Lemma str_app_nil_r (a : string) : a +:+ "" = a.
Proof. induction a as [|x a IH]; [reflexivity|]. by rewrite str_app_cons, IH. Qed.

Lemma prefix_nil (s : string) : String.prefix "" s = true.
Proof. by destruct s. Qed.

Lemma prefix_cons (a b : ascii) (s1 s2 : string) :
  String.prefix (String a s1) (String b s2)
  = if Ascii.ascii_dec a b then String.prefix s1 s2 else false.
Proof. reflexivity. Qed.

Lemma prefix_quote (c : ascii) (s : string) :
  String.prefix SQ (String c s) = bool_decide (c = "'"%char).
Proof.
  unfold SQ. rewrite prefix_cons, prefix_nil.
  destruct (Ascii.ascii_dec "'" c) as [<-|Hc].
  - by rewrite bool_decide_true.
  - rewrite bool_decide_false; [done | congruence].
Qed.

Lemma str_contains_cons (sub : string) (c : ascii) (s : string) :
  str_contains sub (String c s) = String.prefix sub (String c s) || str_contains sub s.
Proof. reflexivity. Qed.

Lemma replace_from_quote (c : ascii) (s : string) :
  replace_from SQ "" 0 (String c s)
  = if bool_decide (c = "'"%char) then replace_from SQ "" 0 s
    else String c (replace_from SQ "" 0 s).
Proof.
  cbn [replace_from]. rewrite prefix_quote. by case_bool_decide.
Qed.

Lemma replace_quotes (s : string) : str_replace SQ "" s = strip_quotes s.
Proof.
  unfold str_replace. induction s as [|c s IH]; [reflexivity|].
  rewrite replace_from_quote. cbn [strip_quotes].
  case_bool_decide as Hc.
  - by rewrite decide_True.
  - by rewrite decide_False, IH.
Qed.

Lemma strip_quotes_clean (s : string) : str_contains SQ (strip_quotes s) = false.
Proof.
  induction s as [|c s IH]; [reflexivity|]. cbn [strip_quotes].
  case_decide as Hc; [done|].
  rewrite str_contains_cons, prefix_quote, IH. by rewrite bool_decide_false.
Qed.

Lemma strip_quotes_id (s : string) : str_contains SQ s = false → strip_quotes s = s.
Proof.
  induction s as [|c s IH]; [reflexivity|].
  rewrite str_contains_cons, prefix_quote. cbn [strip_quotes].
  intros [Hc Hs]%orb_false_iff. apply bool_decide_eq_false in Hc.
  by rewrite decide_False, IH.
Qed.

(** * The insert statement *)

Lemma prep_value_spec (v : pyval) : CsvToSql.prep_value v = spec_render_value v.
Proof.
  destruct v as [s|[]|]; try done. unfold CsvToSql.prep_value. simpl.
  destruct (str_contains SQ s) eqn:Hs.
  - by rewrite replace_quotes.
  - by rewrite strip_quotes_id.
Qed.

Lemma make_prepped_fold (k : string) (d : row) (acc : list (string * string)) :
  is_dict d →
  dict_get k (foldl (fun prepped kv => dict_set kv.1 (CsvToSql.prep_value kv.2) prepped) acc d)
  = match dict_get k d with
    | Some v => Some (CsvToSql.prep_value v)
    | None => dict_get k acc
    end.
Proof.
  unfold is_dict, dict_keys. revert acc.
  induction d as [|[k0 v0] d IH]; intros acc Hd; simpl; [done|].
  apply NoDup_cons in Hd as [Hk0 Hd]. rewrite IH by done.
  destruct (decide (k = k0)) as [->|Hne].
  - apply dict_get_None in Hk0. simpl in Hk0. rewrite Hk0. apply dict_get_set_eq.
  - by rewrite dict_get_set_ne.
Qed.

Lemma make_prepped_get (k : string) (d : row) :
  is_dict d →
  dict_get k (CsvToSql.make_prepped d) = CsvToSql.prep_value <$> dict_get k d.
Proof.
  intros Hd. unfold CsvToSql.make_prepped. rewrite make_prepped_fold by done.
  by destruct (dict_get k d).
Qed.

Lemma prepped_values (d : row) (names : list string) :
  is_dict d → Forall (fun x => is_Some (dict_get x d)) names →
  for_each (fun x => CsvToSql.prepped_getitem x (CsvToSql.make_prepped d)) names
  = Ok ((fun x => spec_render_value (default VNone (dict_get x d))) <$> names).
Proof.
  intros Hd. induction 1 as [|x names [v Hv] _ IH]; simpl; [done|].
  unfold CsvToSql.prepped_getitem at 1. rewrite make_prepped_get, Hv by done. simpl.
  by rewrite IH, prep_value_spec.
Qed.

Lemma make_sql_preload_loop_spec (todo : list row) (n i : Z) (acc : string) :
  Forall is_dict todo → Forall has_fields todo →
  n = i + Z.of_nat (length todo) →
  CsvToSql.make_sql_preload_loop n i todo acc
  = Ok (acc +:+ spec_values (spec_render_row <$> todo)).
Proof.
  revert i acc. induction todo as [|d todo IH]; intros i acc Hd Hf Hn.
  - simpl. by rewrite str_app_nil_r.
  - apply Forall_cons in Hd as [Hd Hds]. apply Forall_cons in Hf as [Hf Hfs].
    cbn [CsvToSql.make_sql_preload_loop].
    rewrite prepped_values by done. cbn [rbind].
    rewrite IH; [|done|done|simpl in Hn; lia].
    f_equal. rewrite fmap_cons. cbn [spec_values]. unfold spec_render_row at 2.
    destruct todo as [|d' todo].
    + rewrite bool_decide_false by (simpl in Hn; lia).
      rewrite !str_app_assoc. reflexivity.
    + rewrite bool_decide_true by (simpl in Hn; lia).
      rewrite fmap_cons, !str_app_assoc. reflexivity.
Qed.

(** C5: on rows that are dicts holding the nine listed columns,
    [make_sql_preload] returns the insert statement of the specification, in
    which a value is rendered as [NULL] when it is [None], as ['true'] or
    ['false'] when it is a boolean, and otherwise between single quotes with
    every single quote of the text taken out (not doubled); the text between
    the quotes therefore holds no single quote, and a text without one is
    kept as it is. *)
Theorem make_sql_preload_renders (data : list row)
    (schema_name table_name table_owner : string) :
  Forall is_dict data → Forall has_fields data →
  CsvToSql.make_sql_preload data schema_name table_name table_owner
    = Ok (spec_insert data schema_name table_name) ∧
  (∀ v, CsvToSql.prep_value v = spec_render_value v) ∧
  (∀ s, str_contains SQ (strip_quotes s) = false) ∧
  (∀ s, str_contains SQ s = false → strip_quotes s = s).
Proof.
  intros Hd Hf. split_and!.
  - unfold CsvToSql.make_sql_preload.
    rewrite (make_sql_preload_loop_spec data) by (done || lia). cbn [rbind].
    f_equal. unfold spec_insert, spec_insert_head. by rewrite !str_app_assoc.
  - apply prep_value_spec.
  - apply strip_quotes_clean.
  - apply strip_quotes_id.
Qed.

(** * The change detector *)

Section Detector.
Context `{Env}.

Lemma _length_changed_eval (w : World) :
  UrlToCsv._length_changed w =
    (Ok (match NEW (CACHE w), OLD (CACHE w) with
         | None, _ => false
         | Some _, None => true
         | Some new, Some old => bool_decide (length new ≠ length old)
         end), w).
Proof.
  unfold UrlToCsv._length_changed, bind, get_world.
  destruct (NEW (CACHE w)) as [new|]; [|done].
  destruct (OLD (CACHE w)) as [old|]; [|done].
  unfold ret. do 2 f_equal. case_decide; case_bool_decide; try done; lia.
Qed.

Lemma _ECS_Version_changed_world (w : World) :
  (UrlToCsv._ECS_Version_changed w).2 = w.
Proof.
  unfold UrlToCsv._ECS_Version_changed, bind, get_world, lift, ret.
  repeat case_match; simplify_eq; done.
Qed.

Lemma _lines_changed_world (w : World) : (UrlToCsv._lines_changed w).2 = w.
Proof.
  unfold UrlToCsv._lines_changed, bind, get_world, lift, ret.
  repeat case_match; simplify_eq; done.
Qed.

Lemma content_has_changed_eval (w : World) :
  UrlToCsv.content_has_changed w =
    match (UrlToCsv._length_changed w).1 with
    | Ok true => (Ok true, w)
    | Ok false =>
        match (UrlToCsv._ECS_Version_changed w).1 with
        | Ok true => (Ok true, w)
        | Ok false => ((UrlToCsv._lines_changed w).1, w)
        | Raise e => (Raise e, w)
        end
    | Raise e => (Raise e, w)
    end.
Proof.
  unfold UrlToCsv.content_has_changed, bind at 1.
  rewrite _length_changed_eval. cbn [fst].
  destruct (match NEW (CACHE w) with Some _ => _ | None => _ end); [done|].
  unfold bind at 1.
  pose proof (_ECS_Version_changed_world w) as Hv.
  destruct (UrlToCsv._ECS_Version_changed w) as [[[]|e] wv]; simpl in Hv; subst wv;
    cbn [fst]; try done.
  unfold bind.
  pose proof (_lines_changed_world w) as Hl.
  destruct (UrlToCsv._lines_changed w) as [[[]|e] wl]; simpl in Hl; subst wl; done.
Qed.

Lemma _ECS_Version_inner_true (v : pyval) (new : list pyval) (has : bool) :
  UrlToCsv._ECS_Version_inner v new has = true ↔
  has = true ∨ ∃ vv, vv ∈ new ∧ v ≠ vv.
Proof.
  revert has. induction new as [|vv new IH]; intros has; simpl.
  - split; [auto | intros [?|(? & []%elem_of_nil & _)]; done].
  - destruct (decide (v ≠ vv)) as [Hne|Heq].
    + split; [|done]. intros _. right. exists vv. split; [by left | done].
    + destruct has; [by split; auto|]. rewrite IH. split.
      * intros [?|(x & Hx & Hvx)]; [done|]. right. exists x. split; [by right | done].
      * intros [?|(x & Hx & Hvx)]; [done|]. right. exists x. split; [|done].
        apply elem_of_cons in Hx as [->|Hx]; done.
Qed.

Lemma _ECS_Version_outer_true (old new : list pyval) (has : bool) :
  UrlToCsv._ECS_Version_outer old new has = true ↔
  has = true ∨ ∃ v vv, v ∈ old ∧ vv ∈ new ∧ v ≠ vv.
Proof.
  revert has. induction old as [|v old IH]; intros has; simpl.
  - split; [auto | intros [?|(? & ? & []%elem_of_nil & _)]; done].
  - destruct (UrlToCsv._ECS_Version_inner v new has) eqn:Hin.
    + apply _ECS_Version_inner_true in Hin as [->|(vv & Hvv & Hne)]; split; auto.
      intros _. right. exists v, vv. split_and!; [by left | done | done].
    + rewrite IH. split.
      * intros [?|(x & y & Hx & Hy & Hxy)]; [done|].
        right. exists x, y. split_and!; [by right | done | done].
      * intros [->|(x & y & Hx & Hy & Hxy)].
        { exfalso. destruct new; simpl in Hin; [done|]. by case_decide. }
        right. exists x, y. split_and!; [|done|done].
        apply elem_of_cons in Hx as [->|Hx]; [|done].
        exfalso. assert (UrlToCsv._ECS_Version_inner v new false = true) as Ht.
        { apply _ECS_Version_inner_true. right. by exists y. }
        destruct has; [|congruence].
        destruct new; simpl in Hin; [done|]. by case_decide.
Qed.

Lemma set_iter_elem (l : list pyval) (v : pyval) :
  set_iter_ok → v ∈ set_iter l ↔ v ∈ l.
Proof. intros Hok. by rewrite (Hok l), elem_of_remove_dups. Qed.

Lemma set_iter_nil : set_iter_ok → set_iter [] = [].
Proof. intros Hok. apply Permutation_nil_r. by rewrite (Hok []). Qed.
End Detector.

(** C6: [content_has_changed] asks the count witness first, the
    version-set witness second and the row-hash witness last, and answers
    true at the first that is positive: when the count witness is positive
    the answer is true although the version-set witness, had it run, would
    raise.  The count witness is false when the new snapshot is [None], true
    when only the old one is [None], and otherwise true exactly when the two
    lists differ in length. *)
Theorem content_has_changed_order `{Env} (w : World) :
  UrlToCsv._length_changed w =
    (Ok (match NEW (CACHE w), OLD (CACHE w) with
         | None, _ => false
         | Some _, None => true
         | Some new, Some old => bool_decide (length new ≠ length old)
         end), w) ∧
  UrlToCsv.content_has_changed w =
    match (UrlToCsv._length_changed w).1 with
    | Ok true => (Ok true, w)
    | Ok false =>
        match (UrlToCsv._ECS_Version_changed w).1 with
        | Ok true => (Ok true, w)
        | Ok false => ((UrlToCsv._lines_changed w).1, w)
        | Raise e => (Raise e, w)
        end
    | Raise e => (Raise e, w)
    end ∧
  ∀ (new : snapshot) changes raw files out,
    let w' := mkWorld files (mkCache None (Some new) changes raw) out in
    UrlToCsv.content_has_changed w' = (Ok true, w') ∧
    UrlToCsv._ECS_Version_changed w' = (Raise TypeError, w').
Proof.
  split_and!.
  - apply _length_changed_eval.
  - apply content_has_changed_eval.
  - intros new changes raw files out w'. split; [|done].
    by rewrite content_has_changed_eval, _length_changed_eval.
Qed.

(** C1, on the code: when the old and the new snapshot are the same rows
    and two of these rows differ in [ECS_Version], the version-set witness,
    and with it [content_has_changed], answers true. *)
Theorem identical_snapshots_report_change `{Env} (w : World) (S : snapshot)
    (versions : list pyval) (v1 v2 : pyval) :
  set_iter_ok →
  OLD (CACHE w) = Some S → NEW (CACHE w) = Some S →
  for_each (getitem "ECS_Version") S = Ok versions →
  v1 ∈ versions → v2 ∈ versions → v1 ≠ v2 →
  UrlToCsv._ECS_Version_changed w = (Ok true, w) ∧
  UrlToCsv.content_has_changed w = (Ok true, w).
Proof.
  intros Hok Hold Hnew Hver H1 H2 Hne.
  assert (Hv : UrlToCsv._ECS_Version_changed w = (Ok true, w)).
  { unfold UrlToCsv._ECS_Version_changed, bind, get_world, lift.
    rewrite Hold, Hnew. cbn [UrlToCsv.not_None]. rewrite Hver.
    rewrite decide_False by (intros Hn; by apply Hn).
    unfold ret. do 2 f_equal. apply _ECS_Version_outer_true. right.
    exists v1, v2. by rewrite !set_iter_elem. }
  split; [done|].
  rewrite content_has_changed_eval, _length_changed_eval, Hv, Hold, Hnew. cbn [fst].
  by rewrite bool_decide_false by (intros Hn; by apply Hn).
Qed.

(** C7, on the code: with a non-empty old snapshot whose last row has an
    [ECS_Version], [update_content] raises [AttributeError] where it reads
    [.name] on the archive file name, a [str]; nothing has been written by
    then, so no archive file exists and the cache file still holds the old
    bytes. *)
Theorem update_content_raises (w : World) (old : snapshot) (last_row : row)
    (version : pyval) :
  OLD (CACHE w) = Some old →
  last old = Some last_row →
  dict_get "ECS_Version" last_row = Some version →
  UrlToCsv.update_content w = (Raise (AttributeError "name"), w).
Proof.
  intros Hold Hlast Hver.
  unfold UrlToCsv.update_content, bind, get_world, lift.
  rewrite Hold. cbn [UrlToCsv.not_None]. unfold index_last. rewrite Hlast.
  unfold getitem. rewrite Hver. reflexivity.
Qed.

Lemma update_content_never_returns (w : World) :
  ∃ e, UrlToCsv.update_content w = (Raise e, w).
Proof.
  unfold UrlToCsv.update_content, bind, get_world, lift.
  destruct (OLD (CACHE w)) as [old|]; cbn [UrlToCsv.not_None]; [|by eexists].
  unfold index_last. destruct (last old) as [last_row|]; [|by eexists].
  unfold getitem. destruct (dict_get "ECS_Version" last_row); by eexists.
Qed.

(** * The main run *)

Section Main.
Context `{Env}.

Lemma readfile_result (w : World) (file : pyobj) (content : string) :
  fs w !! file_key file = Some content →
  (readfile file w).1 = read_rows content.
Proof.
  intros Hf. rewrite (readfile_eval w file content Hf). unfold read_rows. simpl.
  repeat case_match; done.
Qed.

Lemma read_rows_unusable (content : string) :
  ¬ usable (csv_reader content) → read_rows content = Ok [].
Proof.
  intros Hu. unfold read_rows. simpl. case_bool_decide as Hlen; [|done].
  destruct (csv_reader content) as [|header records] eqn:Eraw; [simpl in Hlen; lia|].
  case_bool_decide as Hcol; [|done].
  exfalso. apply Hu. split; [done|]. by exists header.
Qed.

Lemma getitem_raise_inv (k : string) (data : list row) (e : exn) :
  for_each (getitem k) data = Raise e → e = KeyError k.
Proof.
  induction data as [|d data IH]; simpl; [done|].
  unfold getitem at 1. destruct (dict_get k d); simpl; [|congruence].
  destruct (for_each (getitem k) data); simpl; [done|].
  intros [= <-]. by apply IH.
Qed.

Lemma cleanup_spec (verbose : bool) (w : World) :
  ∃ w', UrlToCsv.cleanup verbose w = (Ok tt, w') ∧
        fs w' = delete (file_key ECS_CSV_TEMFILE) (fs w) ∧
        CACHE w' = CACHE w.
Proof.
  unfold UrlToCsv.cleanup, bind, path_exists, os_remove, print, modify, ret.
  case_bool_decide as Hthere.
  - destruct Hthere as [c Hc]. simpl in Hc.
    destruct verbose; simpl; rewrite Hc; eexists; split_and!; done.
  - apply eq_None_not_Some in Hthere. simpl in Hthere.
    destruct verbose; simpl; eexists; split_and!; try done;
      simpl; by rewrite delete_id.
Qed.

Lemma init_cache_run (url : string) (w : World) (oldcontent content : string)
    (old new : snapshot) :
  fs w !! file_key ECS_CSV_FILE = Some oldcontent →
  urlopen url = Ok content →
  read_rows oldcontent = Ok old →
  read_rows content = Ok new →
  ∃ w1, UrlToCsv.init_cache url w = (Ok tt, w1) ∧
        fs w1 = <[file_key ECS_CSV_TEMFILE := content]> (fs w) ∧
        OLD (CACHE w1) = Some old ∧ NEW (CACHE w1) = Some new ∧
        RAW (CACHE w1) = Some content.
Proof.
  intros Hf Hurl Hold Hnew.
  unfold UrlToCsv.init_cache, UrlToCsv._load_cache_old, bind at 1 2.
  pose proof (readfile_result w ECS_CSV_FILE oldcontent Hf) as Hr.
  pose proof (readfile_keeps_files w ECS_CSV_FILE) as [Hfs Hc].
  destruct (readfile ECS_CSV_FILE w) as [r wa]. simpl in Hr, Hfs, Hc.
  rewrite Hr, Hold. unfold UrlToCsv.set_OLD at 1, modify at 1.
  unfold UrlToCsv._load_cache_new, UrlToCsv.download, UrlToCsv._download_data,
    UrlToCsv._save_downloaded_content, bind at 1 2 3 4 5, lift at 1.
  rewrite Hurl. unfold UrlToCsv.set_RAW at 1, modify at 1, ret at 1,
    write_text at 1, modify at 1.
  set (wb := set_fs _ _).
  assert (Hb : fs wb !! file_key ECS_CSV_TEMFILE = Some content).
  { subst wb. simpl. apply lookup_insert_eq. }
  pose proof (readfile_result wb ECS_CSV_TEMFILE content Hb) as Hr2.
  pose proof (readfile_keeps_files wb ECS_CSV_TEMFILE) as [Hfs2 Hc2].
  unfold bind at 1 2.
  destruct (readfile ECS_CSV_TEMFILE wb) as [r2 wc]. simpl in Hr2, Hfs2, Hc2.
  rewrite Hr2, Hnew. unfold UrlToCsv.set_NEW at 1, modify at 1.
  unfold bind, UrlToCsv._check_new_cache_loaded, UrlToCsv._init_changes_cache,
    get_world, ret, UrlToCsv.set_CHANGES, modify.
  destruct wc as [fsc [oc nc chc rc] outc]. subst wb. simpl in *.
  injection Hc2 as -> -> -> ->. subst fsc. rewrite Hfs.
  destruct (CHANGES (CACHE wa)); simpl; eexists; (split; [reflexivity|]); done.
Qed.

Lemma content_has_changed_world (w : World) : (UrlToCsv.content_has_changed w).2 = w.
Proof. rewrite content_has_changed_eval. repeat case_match; done. Qed.

Lemma main_eval (url : string) (w : World) :
  UrlToCsv.main url w =
    match UrlToCsv.init_cache url (UrlToCsv.cleanup false w).2 with
    | (Raise e, w1) => (Raise e, w1)
    | (Ok _, w1) =>
        match (UrlToCsv.content_has_changed w1).1 with
        | Raise e =>
            if is_Exception e then (Raise (SystemExit 1), printed (exn_line e) w1)
            else (Raise e, w1)
        | Ok true =>
            match UrlToCsv.update_content
                    (printed (Text "Content changes detected, saving new schema...") w1) with
            | (Raise e, w2) => (Raise e, w2)
            | (Ok _, w2) => (Raise (SystemExit 0), (UrlToCsv.cleanup true w2).2)
            end
        | Ok false => (Raise (SystemExit 0), (UrlToCsv.cleanup true w1).2)
        end
    end.
Proof.
  unfold UrlToCsv.main, bind at 1.
  destruct (cleanup_spec false w) as (w0 & -> & _ & _). cbn [snd].
  unfold bind at 1. destruct (UrlToCsv.init_cache url w0) as [[[]|e] w1]; [|done].
  unfold bind at 1, try_except.
  pose proof (content_has_changed_world w1) as Hw.
  destruct (UrlToCsv.content_has_changed w1) as [[b|e] w1']; simpl in Hw; subst w1'; cbn [fst].
  - destruct b.
    + unfold bind at 1 2, print at 1, modify at 1. fold (printed (Text "Content changes detected, saving new schema...") w1).
      destruct (UrlToCsv.update_content _) as [[[]|e] w2]; [|done].
      unfold bind. destruct (cleanup_spec true w2) as (w3 & -> & _ & _). done.
    + unfold bind at 1, ret at 1. unfold bind.
      destruct (cleanup_spec true w1) as (w3 & -> & _ & _). done.
  - unfold UrlToCsv.on_Exception. destruct (is_Exception e); [|done].
    unfold bind, print, modify. done.
Qed.
End Main.

(** C3, on the code: when the cache file and the fetched text load as
    snapshots of the same length and a row of the old one has no
    [ECS_Version], so that change detection raises, [main] leaves through
    [sys.exit(1)] and the scratch file, holding the fetched text, is still
    there. *)
Theorem main_error_keeps_tempfile `{Env} (url : string) (w : World)
    (oldcontent content : string) (old new : snapshot) (e : exn) :
  fs w !! file_key ECS_CSV_FILE = Some oldcontent →
  urlopen url = Ok content →
  read_rows oldcontent = Ok old →
  read_rows content = Ok new →
  length old = length new →
  for_each (getitem "ECS_Version") old = Raise e →
  ∃ w', UrlToCsv.main url w = (Raise (SystemExit 1), w') ∧
        fs w' !! file_key ECS_CSV_TEMFILE = Some content.
Proof.
  intros Hf Hurl Hold Hnew Hlen Hver. rewrite main_eval.
  destruct (cleanup_spec false w) as (w0 & -> & Hfs0 & _). cbn [snd].
  destruct (init_cache_run url w0 oldcontent content old new) as (w1 & -> & Hfs1 & Ho & Hn & _);
    [by rewrite Hfs0, lookup_delete_ne | done..|].
  rewrite content_has_changed_eval, _length_changed_eval, Ho, Hn. cbn [fst].
  rewrite bool_decide_false by (intros Hne; by apply Hne).
  unfold UrlToCsv._ECS_Version_changed, bind, get_world, lift.
  rewrite Ho. cbn [UrlToCsv.not_None]. rewrite Hver. cbn [fst].
  rewrite (getitem_raise_inv _ _ _ Hver). cbn [is_Exception].
  eexists. split; [done|]. simpl. rewrite Hfs1. apply lookup_insert_eq.
Qed.

Lemma empty_snapshots_no_change `{Env} (w : World) :
  set_iter_ok →
  OLD (CACHE w) = Some [] → NEW (CACHE w) = Some [] →
  UrlToCsv.content_has_changed w = (Ok false, w).
Proof.
  intros Hok Ho Hn.
  rewrite content_has_changed_eval, _length_changed_eval, Ho, Hn. cbn [fst].
  rewrite bool_decide_false by (intros Hne; by apply Hne).
  unfold UrlToCsv._ECS_Version_changed, UrlToCsv._lines_changed, bind, get_world, lift.
  rewrite Ho, Hn. cbn [UrlToCsv.not_None for_each]. rewrite set_iter_nil by done.
  reflexivity.
Qed.

(** C4, on the code: when neither the cache file nor the fetched text
    loads as a usable snapshot, [main] leaves through [sys.exit(0)]: the
    status is 0, the cache file is as it was and the scratch file is gone. *)
Theorem main_unusable_fetch_exits_zero `{Env} (url : string) (w : World)
    (oldcontent content : string) :
  set_iter_ok →
  fs w !! file_key ECS_CSV_FILE = Some oldcontent →
  urlopen url = Ok content →
  ¬ usable (csv_reader oldcontent) →
  ¬ usable (csv_reader content) →
  ∃ w', UrlToCsv.main url w = (Raise (SystemExit 0), w') ∧
        exit_status (UrlToCsv.main url w).1 = 0 ∧
        fs w' !! file_key ECS_CSV_FILE = Some oldcontent ∧
        fs w' !! file_key ECS_CSV_TEMFILE = None.
Proof.
  intros Hok Hf Hurl Hold Hnew. rewrite main_eval.
  destruct (cleanup_spec false w) as (w0 & -> & Hfs0 & _). cbn [snd].
  destruct (init_cache_run url w0 oldcontent content [] []) as (w1 & -> & Hfs1 & Ho & Hn & _);
    [by rewrite Hfs0, lookup_delete_ne | done | by apply read_rows_unusable.. |].
  rewrite empty_snapshots_no_change by done. cbn [fst].
  destruct (cleanup_spec true w1) as (w2 & -> & Hfs2 & _). cbn [snd].
  eexists. split_and!; [done | done | |].
  - rewrite Hfs2, lookup_delete_ne, Hfs1, lookup_insert_ne, Hfs0, lookup_delete_ne; done.
  - rewrite Hfs2. apply lookup_delete_eq.
Qed.

(** * The compiler on the empty snapshot *)

Lemma add_constraint_empty `{Env} (schema_name table_name varname : string) :
  set_iter_ok →
  CsvToSql._add_constraint schema_name table_name varname [] =
    Ok ("CONSTRAINT " +:+ DQ +:+ schema_name +:+ "_" +:+ table_name +:+ "_" +:+ varname
          +:+ "_oneof" +:+ DQ +:+ LF +:+ TAB +:+ TAB +:+ "CHECK (" +:+ LF +:+ TAB +:+ TAB
          +:+ TAB +:+ DQ +:+ varname +:+ DQ +:+ " = ANY (ARRAY[").
Proof.
  intros Hok. unfold CsvToSql._add_constraint. cbn [for_each rbind].
  by rewrite set_iter_nil.
Qed.

(** C2, on the code: for the empty snapshot every constraint stops after
    [ANY (ARRAY[], the closing text being written only inside the loop over
    the values; the text compiled with the default names has brackets that
    are never closed. *)
Theorem compile_empty_unclosed `{Env} :
  set_iter_ok →
  (∀ schema_name table_name varname, ∃ pre,
     CsvToSql._add_constraint schema_name table_name varname []
       = Ok (pre +:+ " = ANY (ARRAY[")) ∧
  ∃ sql,
    CsvToSql.compile [] CsvToSql.DEFAULT_SCHEMA_NAME CsvToSql.DEFAULT_TABLE_NAME
      CsvToSql.DEFAULT_TABLE_OWNER = Ok sql ∧
    brackets_balanced sql = false.
Proof.
  intros Hok. split.
  - intros schema_name table_name varname.
    rewrite add_constraint_empty by done. eexists. f_equal.
    rewrite <-!str_app_assoc. reflexivity.
  - unfold CsvToSql.compile, CsvToSql.make_sql.
    cbn [index_last last rbind CsvToSql.make_sql_loop].
    rewrite !add_constraint_empty by done. cbn [rbind].
    eexists. split; [reflexivity|]. vm_compute. reflexivity.
Qed.

(** * The theorems at concrete inputs *)

Lemma plain_env_set_iter_ok (served : result string) : @set_iter_ok (plain_env served).
Proof. intros l. reflexivity. Qed.

Lemma identical_snapshots_report_change_witness :
  let S := [sample_row "8.0.0" "true" "keyword"; sample_row "9.0.0" "true" "keyword"] in
  @UrlToCsv._ECS_Version_changed (plain_env (Raise URLError)) (world_with S S)
    = (Ok true, world_with S S) ∧
  @UrlToCsv.content_has_changed (plain_env (Raise URLError)) (world_with S S)
    = (Ok true, world_with S S).
Proof.
  intros S.
  apply (@identical_snapshots_report_change (plain_env (Raise URLError)) (world_with S S) S
           [VStr "8.0.0"; VStr "9.0.0"] (VStr "8.0.0") (VStr "9.0.0")).
  - intros l. reflexivity.
  - reflexivity.
  - reflexivity.
  - reflexivity.
  - apply list_elem_of_here.
  - apply list_elem_of_further, list_elem_of_here.
  - discriminate.
Defined.

Lemma compile_empty_unclosed_witness :
  (∀ schema_name table_name varname, ∃ pre,
     @CsvToSql._add_constraint (plain_env (Raise URLError)) schema_name table_name varname []
       = Ok (pre +:+ " = ANY (ARRAY[")) ∧
  ∃ sql,
    @CsvToSql.compile (plain_env (Raise URLError)) [] CsvToSql.DEFAULT_SCHEMA_NAME
      CsvToSql.DEFAULT_TABLE_NAME CsvToSql.DEFAULT_TABLE_OWNER = Ok sql ∧
    brackets_balanced sql = false.
Proof.
  apply (@compile_empty_unclosed (plain_env (Raise URLError))).
  intros l. reflexivity.
Defined.

Lemma main_error_keeps_tempfile_witness :
  ∃ w', @UrlToCsv.main (plain_env (Ok NO_VERSION_TEXT)) ECS_CSV_URL
          (world_of [("ecs.csv", NO_VERSION_TEXT)]) = (Raise (SystemExit 1), w') ∧
        fs w' !! file_key ECS_CSV_TEMFILE = Some NO_VERSION_TEXT.
Proof.
  eapply (@main_error_keeps_tempfile (plain_env (Ok NO_VERSION_TEXT)) ECS_CSV_URL
            (world_of [("ecs.csv", NO_VERSION_TEXT)]) NO_VERSION_TEXT NO_VERSION_TEXT).
  - vm_compute. reflexivity.
  - reflexivity.
  - vm_compute. reflexivity.
  - vm_compute. reflexivity.
  - reflexivity.
  - vm_compute. reflexivity.
Defined.

Lemma main_unusable_fetch_exits_zero_witness :
  ∃ w', @UrlToCsv.main (plain_env (Ok "")) ECS_CSV_URL
          (world_of [("ecs.csv", HEADER_ONLY_TEXT)]) = (Raise (SystemExit 0), w') ∧
        exit_status (@UrlToCsv.main (plain_env (Ok "")) ECS_CSV_URL
                       (world_of [("ecs.csv", HEADER_ONLY_TEXT)])).1 = 0 ∧
        fs w' !! file_key ECS_CSV_FILE = Some HEADER_ONLY_TEXT ∧
        fs w' !! file_key ECS_CSV_TEMFILE = None.
Proof.
  apply (@main_unusable_fetch_exits_zero (plain_env (Ok "")) ECS_CSV_URL
           (world_of [("ecs.csv", HEADER_ONLY_TEXT)]) HEADER_ONLY_TEXT "").
  - intros l. reflexivity.
  - vm_compute. reflexivity.
  - reflexivity.
  - intros [Hlen _]. vm_compute in Hlen. lia.
  - intros [Hlen _]. vm_compute in Hlen. lia.
Defined.

Lemma make_sql_preload_renders_witness :
  let data := [sample_row "8.0.0" "true" "key'word"] in
  CsvToSql.make_sql_preload data "ecs" "t" "postgres" = Ok (spec_insert data "ecs" "t") ∧
  (∀ v, CsvToSql.prep_value v = spec_render_value v) ∧
  (∀ s, str_contains SQ (strip_quotes s) = false) ∧
  (∀ s, str_contains SQ s = false → strip_quotes s = s).
Proof.
  intros data. apply (make_sql_preload_renders data "ecs" "t" "postgres").
  - apply Forall_singleton. unfold is_dict, dict_keys.
    by apply (bool_decide_unpack _).
  - repeat constructor; by eexists.
Defined.

Lemma update_content_raises_witness :
  let w := world_with [sample_row "8.0.0" "true" "keyword"] [sample_row "9.0.0" "true" "keyword"] in
  UrlToCsv.update_content w = (Raise (AttributeError "name"), w).
Proof.
  intros w.
  apply (update_content_raises w [sample_row "8.0.0" "true" "keyword"]
           (sample_row "8.0.0" "true" "keyword") (VStr "8.0.0")); reflexivity.
Defined.

Lemma clean_data_coerces_witness :
  ∃ data', _clean_data (formatted_rows (csv_plain ONE_ROW_TEXT)) = Ok data' ∧
           Forall2 cleaned (formatted_rows (csv_plain ONE_ROW_TEXT)) data'.
Proof.
  apply (clean_data_coerces (csv_plain ONE_ROW_TEXT)).
  - vm_compute. reflexivity.
  - vm_compute. repeat constructor; by eexists.
Defined.

Lemma readfile_fails_soft_witness :
  let w := world_of [("ecs.csv", ONE_ROW_TEXT)] in
  ∃ data out,
    @readfile (plain_env (Raise URLError)) ECS_CSV_FILE w
      = (Ok data, mkWorld (fs w) (CACHE w) (stdout w ++ out)) ∧
    ((length (csv_plain ONE_ROW_TEXT) < 2)%nat →
       data = [] ∧ out = [NoDataFound (length (csv_plain ONE_ROW_TEXT))]) ∧
    ((2 ≤ length (csv_plain ONE_ROW_TEXT))%nat → ¬ right_header (csv_plain ONE_ROW_TEXT) →
       data = [] ∧ ∃ n, out = [WrongHeaderLength n ECS_CSV_COLUMN_COUNT]) ∧
    ((2 ≤ length (csv_plain ONE_ROW_TEXT))%nat → right_header (csv_plain ONE_ROW_TEXT) →
       out = [] ∧ length data = (length (csv_plain ONE_ROW_TEXT) - 1)%nat ∧
       Forall2 cleaned (formatted_rows (csv_plain ONE_ROW_TEXT)) data).
Proof.
  intros w.
  apply (@readfile_fails_soft (plain_env (Raise URLError)) w ECS_CSV_FILE ONE_ROW_TEXT).
  - vm_compute. reflexivity.
  - intros _. vm_compute. repeat constructor; by eexists.
Defined.

Lemma readfile_short_row_raises_witness :
  let w := world_of [("ecs.csv", SHORT_ROW_TEXT)] in
  ∃ k, @readfile (plain_env (Raise URLError)) ECS_CSV_FILE w = (Raise (KeyError k), w) ∧
       k ∈ ["Indexed"; "Normalization"; "Example"] ∧
       (Forall supplies_keys (formatted_rows [CsvToSql.fields]) → k = "Indexed").
Proof.
  intros w.
  apply (@readfile_short_row_raises (plain_env (Raise URLError)) w ECS_CSV_FILE SHORT_ROW_TEXT
           CsvToSql.fields [] ["8.0.0"] []).
  - vm_compute. reflexivity.
  - vm_compute. reflexivity.
  - reflexivity.
  - by apply (bool_decide_unpack _).
Defined.

(** C9, as the specification words it, fails: on a file whose header has
    nine columns and whose only data row has one field, [readfile] raises. *)
Lemma readfile_raises_on_short_row :
  (@readfile (plain_env (Raise URLError)) ECS_CSV_FILE
     (world_of [("ecs.csv", SHORT_ROW_TEXT)])).1 = Raise (KeyError "Indexed").
Proof. vm_compute. reflexivity. Qed.

(** * Checks on explicit inputs *)

Example reader_False_is_true :
  (@readfile (plain_env (Raise URLError)) ECS_CSV_FILE
     (world_of [("ecs.csv", ONE_ROW_TEXT)])).1 = Ok [sample_row "8.0.0" "False" "keyword"]
  ∧ dict_get "Indexed" (sample_row "8.0.0" "False" "keyword") = Some (VBool true).
Proof. split; vm_compute; reflexivity. Qed.

Example insert_row_of_the_specification :
  spec_render_row (sample_row "8.0.0" "true" "keyword")
  = "('8.0.0', 'true', 'host', 'host.name', 'keyword', 'core', NULL, NULL, 'Hostname')".
Proof. vm_compute. reflexivity. Qed.

Example compiled_row_is_balanced :
  (let? sql := @CsvToSql.compile (plain_env (Raise URLError))
                 [sample_row "8.0.0" "true" "keyword"] "ecs" "t" "postgres" in
   Ok (brackets_balanced sql)) = Ok true.
Proof. vm_compute. reflexivity. Qed.

Example rotation_crashes :
  let r := @UrlToCsv.main (plain_env (Ok (HEADER +:+ LF +:+ "9.0.0,true,host,host.name,keyword,core,,,Hostname" +:+ LF)))
             ECS_CSV_URL (world_of [("ecs.csv", ONE_ROW_TEXT)]) in
  r.1 = Raise (AttributeError "name") ∧
  exit_status r.1 = 1 ∧
  fs r.2 !! "ecs.csv" = Some ONE_ROW_TEXT ∧
  is_Some (fs r.2 !! "ecs-tempfile.csv") ∧
  fs r.2 !! "ecs.8.0.0.csv" = None.
Proof. vm_compute. split_and!; try reflexivity. by eexists. Qed.

Example archive_name_of_the_cache_file :
  str_replace ".csv" ".8.0.0.csv" "ecs.csv" = "ecs.8.0.0.csv"
  ∧ str_replace ".csv" "-" "a.csv.csv" = "a--"
  ∧ str_replace "'" "" "Host's 'name'" = "Hosts name".
Proof. vm_compute. split_and!; reflexivity. Qed.

Example unchanged_content_exits_zero :
  let r := @UrlToCsv.main (plain_env (Ok ONE_ROW_TEXT)) ECS_CSV_URL
             (world_of [("ecs.csv", ONE_ROW_TEXT); ("ecs-tempfile.csv", "stale")]) in
  r.1 = Raise (SystemExit 0) ∧
  fs r.2 !! "ecs.csv" = Some ONE_ROW_TEXT ∧
  fs r.2 !! "ecs-tempfile.csv" = None ∧
  stdout r.2 = [Text "Removing tempfile: ecs-tempfile.csv"; Text "Cleanup complete"].
Proof. vm_compute. split_and!; reflexivity. Qed.

Example cleanup_without_tempfile :
  let w := world_of [("ecs.csv", ONE_ROW_TEXT)] in
  UrlToCsv.cleanup false w = (Ok tt, w)
  ∧ (UrlToCsv.cleanup true w).1 = Ok tt
  ∧ fs (UrlToCsv.cleanup true w).2 = fs w.
Proof. vm_compute. split_and!; reflexivity. Qed.

Example unusable_fetch_over_usable_cache :
  let r := @UrlToCsv.main (plain_env (Ok "")) ECS_CSV_URL
             (world_of [("ecs.csv", ONE_ROW_TEXT)]) in
  r.1 = Raise (AttributeError "name") ∧
  fs r.2 !! "ecs.csv" = Some ONE_ROW_TEXT ∧
  fs r.2 !! "ecs-tempfile.csv" = Some "".
Proof. vm_compute. split_and!; reflexivity. Qed.

(** * Further properties of the reader *)

Section DictFresh.
Context {K V : Type} `{EqDecision K}.

Lemma dict_set_absent (k : K) (v : V) (d : list (K * V)) :
  dict_get k d = None → dict_set k v d = (d ++ [(k, v)])%list.
Proof.
  induction d as [|[k0 v0] d IH]; simpl; [done|].
  case_decide; [done|]. intros Hd. by rewrite IH.
Qed.

Lemma dict_fold_fresh (pairs acc : list (K * V)) :
  NoDup (dict_keys acc ++ pairs.*1) →
  foldl (fun d kv => dict_set kv.1 kv.2 d) acc pairs = (acc ++ pairs)%list.
Proof.
  revert acc. induction pairs as [|[k v] pairs IH]; intros acc Hnd; simpl.
  - by rewrite app_nil_r.
  - simpl in Hnd. rewrite dict_set_absent.
    + rewrite IH; [by rewrite <-app_assoc|].
      unfold dict_keys. rewrite fmap_app, <-app_assoc. done.
    + apply dict_get_None. apply NoDup_app in Hnd as (_ & Hdis & _).
      intros Hin. apply (Hdis k Hin). by left.
Qed.

Lemma dict_of_distinct (pairs : list (K * V)) :
  NoDup pairs.*1 → dict_of pairs = pairs.
Proof. intros Hnd. unfold dict_of. by rewrite dict_fold_fresh. Qed.
End DictFresh.

Lemma clean_row_Ok_inv (d d' : row) :
  _clean_data_row d = Ok d' → supplies_keys d.
Proof.
  unfold _clean_data_row, getitem, supplies_keys.
  destruct (dict_get "Indexed" d) as [i|] eqn:Hi; simpl; [|done].
  rewrite dict_get_set_ne by done.
  destruct (dict_get "Normalization" d) as [n|] eqn:Hn; simpl; [|done].
  case_decide; rewrite ?dict_get_set_ne by done;
    destruct (dict_get "Example" d) as [e|] eqn:He; simpl; try done;
    intros _; split_and!; by eexists.
Qed.

(** X1: under a header without repeated names, [_format_data] pairs the
    header names with the fields of each record in column order and nothing
    else: fields beyond the width of the header, and header names beyond the
    length of the record, are dropped. *)
Theorem format_data_distinct_header (header : list string) (records : list (list string)) :
  NoDup header →
  _format_data (header :: records)
    = Ok ((fun l => zip header (VStr <$> l)) <$> records).
Proof.
  intros Hnd. rewrite format_data_eval. simpl. f_equal.
  apply list_fmap_ext. intros _ l _. apply dict_of_distinct.
  rewrite zip_keys. eapply sublist_NoDup; [done | apply sublist_take].
Qed.

(** X2: every row [readfile] returns is a dict (no key twice, whatever the
    header repeats) that holds [Indexed] as a boolean and the keys
    [Normalization] and [Example]; reading changes neither the files nor
    the module dictionary. *)
Theorem readfile_rows_wellformed `{Env} (w w' : World) (file : pyobj) (data : snapshot) :
  readfile file w = (Ok data, w') →
  Forall is_dict data ∧
  Forall (fun d => (∃ b, dict_get "Indexed" d = Some (VBool b)) ∧
                   is_Some (dict_get "Normalization" d) ∧
                   is_Some (dict_get "Example" d)) data ∧
  fs w' = fs w ∧ CACHE w' = CACHE w.
Proof.
  intros Hr. pose proof (readfile_keeps_files w file) as [Hfs Hc].
  rewrite Hr in Hfs, Hc. simpl in Hfs, Hc. split_and!; [| |done|done].
  all: destruct (fs w !! file_key file) as [content|] eqn:Hf;
    [|by rewrite (readfile_missing w file Hf) in Hr].
  all: rewrite (readfile_eval w file content Hf) in Hr; simpl in Hr.
  all: case_bool_decide; [|injection Hr as <- _; constructor].
  all: destruct (csv_reader content) as [|header records] eqn:Eraw; [done|].
  all: case_bool_decide; [|injection Hr as <- _; constructor].
  all: destruct (_clean_data _) as [data'|e] eqn:Hclean; [|done].
  all: injection Hr as -> _.
  all: assert (Hkeys : Forall supplies_keys (formatted_rows (header :: records)))
    by (apply for_each_Ok in Hclean; eapply Forall2_Forall_l; [exact Hclean|];
        apply Forall_forall; intros d _ d'; apply clean_row_Ok_inv).
  all: destruct (clean_data_cleaned _ (formatted_rows_text (header :: records)) Hkeys)
    as (data'' & Hd'' & Hall); rewrite Hclean in Hd''; injection Hd'' as <-.
  - pose proof (formatted_rows_is_dict (header :: records)) as Hdict.
    revert Hall Hdict. generalize (formatted_rows (header :: records)).
    intros rows Hall Hdict. clear Hclean Hkeys.
    induction Hall as [|d d' rs ds Hc' _ IH]; [constructor|].
    apply Forall_cons in Hdict as [Hd Hdict]. constructor; [|by apply IH].
    destruct Hc' as (i & n & e & _ & _ & _ & _ & _ & _ & _ & Hk).
    unfold is_dict. by rewrite Hk.
  - clear Hclean Hkeys. induction Hall as [|d d' rs ds Hc' _ IH]; [constructor|].
    constructor; [|done].
    destruct Hc' as (i & n & e & _ & _ & _ & Hi & Hn & He & _ & _).
    split_and!; by eexists.
Qed.

(** * Further properties of the compiler *)

Lemma for_each_raise_inv {A B} (f : A → result B) (l : list A) (e : exn) :
  for_each f l = Raise e → ∃ x, x ∈ l ∧ f x = Raise e.
Proof.
  induction l as [|a l IH]; simpl; [done|].
  destruct (f a) as [y|e0] eqn:Ea; simpl.
  - destruct (for_each f l) as [ys|e1]; simpl; [done|].
    intros [= <-]. destruct (IH eq_refl) as (x & Hx & Hfx).
    exists x. split; [by right | done].
  - intros [= <-]. exists a. split; [by left | done].
Qed.

Lemma getitem_column (k : string) (data : list row) :
  (∃ column, for_each (getitem k) data = Ok column ∧
             Forall (fun d => is_Some (dict_get k d)) data) ∨
  (for_each (getitem k) data = Raise (KeyError k) ∧
   Exists (fun d => dict_get k d = None) data).
Proof.
  destruct (for_each (getitem k) data) as [column|e] eqn:Hc.
  - left. exists column. split; [done|].
    apply for_each_Ok in Hc. eapply Forall2_Forall_l; [exact Hc|].
    apply Forall_forall. intros v _ d. unfold getitem.
    destruct (dict_get k d); [by eexists | done].
  - right. destruct (for_each_raise_inv _ _ _ Hc) as (d & Hd & Hg).
    unfold getitem in Hg. destruct (dict_get k d) eqn:Hk; [done|].
    injection Hg as <-. split; [done|]. apply Exists_exists. by exists d.
Qed.

Lemma str_join_cons2 (sep x y : string) (l : list string) :
  str_join sep (x :: y :: l) = x +:+ sep +:+ str_join sep (y :: l).
Proof. reflexivity. Qed.

Lemma add_constraint_loop_spec `{Env} (items : list pyval) (n i : Z) (acc : string) :
  items ≠ [] → n = i + Z.of_nat (length items) →
  CsvToSql._add_constraint_loop n i items acc
  = acc +:+ str_join "," (constraint_item <$> items) +:+ constraint_tail.
Proof.
  revert i acc. induction items as [|t items IH]; intros i acc Hne Hn; [done|].
  cbn [CsvToSql._add_constraint_loop]. fold (constraint_item t). fold constraint_tail.
  destruct items as [|t' items].
  - rewrite bool_decide_false by (simpl in Hn; lia). simpl.
    by rewrite !str_app_assoc.
  - rewrite bool_decide_true by (simpl in Hn; lia).
    rewrite IH; [|done|simpl in Hn |- *; lia].
    rewrite !fmap_cons, str_join_cons2, !str_app_assoc. reflexivity.
Qed.

Lemma add_constraint_result `{Env} (schema_name table_name varname : string)
    (data : list row) :
  (Forall (fun d => is_Some (dict_get varname d)) data ∧
   ∃ text, CsvToSql._add_constraint schema_name table_name varname data = Ok text) ∨
  (Exists (fun d => dict_get varname d = None) data ∧
   CsvToSql._add_constraint schema_name table_name varname data = Raise (KeyError varname)).
Proof.
  unfold CsvToSql._add_constraint.
  destruct (getitem_column varname data) as [(column & -> & Hall)|[-> Hex]]; simpl.
  - left. split; [done | by eexists].
  - by right.
Qed.

(** X3: for rows that all hold the column, and at least one row,
    [_add_constraint] returns the opening text, then one
    ['value'::bpchar] item for each distinct value of the column, each
    exactly once, with a comma between two items and none after the last,
    then the closing text.  The values are written as they are: a single
    quote in a value is neither removed nor doubled here. *)
Theorem add_constraint_lists_values `{Env} (schema_name table_name varname : string)
    (data : list row) (column : list pyval) :
  set_iter_ok →
  for_each (getitem varname) data = Ok column →
  column ≠ [] →
  ∃ items, items ≡ₚ remove_dups column ∧
    CsvToSql._add_constraint schema_name table_name varname data
    = Ok (constraint_head schema_name table_name varname
            +:+ str_join "," (constraint_item <$> items) +:+ constraint_tail).
Proof.
  intros Hok Hcol Hne. exists (set_iter column). split; [apply Hok|].
  unfold CsvToSql._add_constraint. rewrite Hcol. cbn [rbind]. f_equal.
  apply add_constraint_loop_spec; [|lia].
  intros Hnil. destruct column as [|v column]; [done|].
  assert (v ∈ set_iter (v :: column)) as Hv by (apply set_iter_elem; [done | by left]).
  rewrite Hnil in Hv. by apply elem_of_nil in Hv.
Qed.

Lemma make_sql_result `{Env} (data : list row)
    (schema_name table_name table_owner : string) :
  (Forall has_constrained data ∧
   ∃ sql, CsvToSql.make_sql data schema_name table_name table_owner = Ok sql) ∨
  (∃ k, k ∈ ["Type"; "Field_Set"; "Level"] ∧
        Exists (fun d => dict_get k d = None) data ∧
        CsvToSql.make_sql data schema_name table_name table_owner = Raise (KeyError k)).
Proof.
  unfold CsvToSql.make_sql. cbn [index_last last rbind CsvToSql.make_sql_loop].
  destruct (add_constraint_result schema_name table_name "Type" data)
    as [(H1 & c1 & ->)|[Hex ->]]; cbn [rbind];
    [|right; exists "Type"; split_and!; [by apply (bool_decide_unpack _) | done | done]].
  destruct (add_constraint_result schema_name table_name "Field_Set" data)
    as [(H2 & c2 & ->)|[Hex ->]]; cbn [rbind];
    [|right; exists "Field_Set"; split_and!; [by apply (bool_decide_unpack _) | done | done]].
  destruct (add_constraint_result schema_name table_name "Level" data)
    as [(H3 & c3 & ->)|[Hex ->]]; cbn [rbind];
    [|right; exists "Level"; split_and!; [by apply (bool_decide_unpack _) | done | done]].
  left. split; [|by eexists].
  apply Forall_forall. intros d Hd. unfold has_constrained.
  rewrite Forall_forall in H1, H2, H3. repeat constructor; auto.
Qed.

(** X4: [make_sql] returns a statement exactly when every row holds the
    three columns it builds constraints from; otherwise it raises
    [KeyError] for one of [Type], [Field_Set], [Level] that some row
    lacks. *)
Theorem make_sql_needs_constrained `{Env} (data : list row)
    (schema_name table_name table_owner : string) :
  (Forall has_constrained data ∧
   ∃ sql, CsvToSql.make_sql data schema_name table_name table_owner = Ok sql) ∨
  (∃ k, k ∈ ["Type"; "Field_Set"; "Level"] ∧
        Exists (fun d => dict_get k d = None) data ∧
        CsvToSql.make_sql data schema_name table_name table_owner = Raise (KeyError k)).
Proof. apply make_sql_result. Qed.

Lemma prepped_row_result (d : row) :
  is_dict d →
  (has_fields d ∧
   for_each (fun x => CsvToSql.prepped_getitem x (CsvToSql.make_prepped d)) CsvToSql.fields
   = Ok ((fun x => spec_render_value (default VNone (dict_get x d))) <$> CsvToSql.fields)) ∨
  (∃ k, k ∈ CsvToSql.fields ∧ dict_get k d = None ∧
        for_each (fun x => CsvToSql.prepped_getitem x (CsvToSql.make_prepped d)) CsvToSql.fields
        = Raise (KeyError k)).
Proof.
  intros Hd.
  destruct (for_each _ CsvToSql.fields) as [vals|e] eqn:Hv.
  - left. assert (Hf : has_fields d).
    { apply for_each_Ok in Hv. eapply Forall2_Forall_l; [exact Hv|].
      apply Forall_forall. intros s _ x. unfold CsvToSql.prepped_getitem.
      rewrite make_prepped_get by done. destruct (dict_get x d); [by eexists | done]. }
    split; [done|]. rewrite <-Hv. by apply prepped_values.
  - right. destruct (for_each_raise_inv _ _ _ Hv) as (x & Hx & Hg).
    unfold CsvToSql.prepped_getitem in Hg. rewrite make_prepped_get in Hg by done.
    destruct (dict_get x d) eqn:Hk; [done|]. injection Hg as <-. by exists x.
Qed.

Lemma make_sql_preload_loop_raises (todo : list row) :
  Forall is_dict todo → Exists (fun d => ¬ has_fields d) todo →
  ∃ k, k ∈ CsvToSql.fields ∧ Exists (fun d => dict_get k d = None) todo ∧
       ∀ n i acc, CsvToSql.make_sql_preload_loop n i todo acc = Raise (KeyError k).
Proof.
  induction todo as [|d todo IH]; intros Hd Hex.
  - by apply Exists_nil in Hex.
  - apply Forall_cons in Hd as [Hd Hds].
    destruct (prepped_row_result d Hd) as [[Hf Hv]|(k & Hk & Hnone & Hv)].
    + apply Exists_cons in Hex as [Hbad|Hex]; [done|].
      destruct (IH Hds Hex) as (k & Hk & Hex' & Hr).
      exists k. split_and!; [done | by right |].
      intros n i acc. cbn [CsvToSql.make_sql_preload_loop]. rewrite Hv. cbn [rbind].
      apply Hr.
    + exists k. split_and!; [done | by left |].
      intros n i acc. cbn [CsvToSql.make_sql_preload_loop]. by rewrite Hv.
Qed.

(** X5: on rows that are dicts, of which one lacks some of the nine listed
    columns, [make_sql_preload] returns no statement: it raises [KeyError]
    for a listed column that some row lacks. *)
Theorem make_sql_preload_missing_column (data : list row)
    (schema_name table_name table_owner : string) :
  Forall is_dict data →
  Exists (fun d => ¬ has_fields d) data →
  ∃ k, k ∈ CsvToSql.fields ∧ Exists (fun d => dict_get k d = None) data ∧
       CsvToSql.make_sql_preload data schema_name table_name table_owner
       = Raise (KeyError k).
Proof.
  intros Hd Hex. destruct (make_sql_preload_loop_raises data Hd Hex) as (k & Hk & Hn & Hr).
  exists k. split_and!; [done | done |].
  unfold CsvToSql.make_sql_preload. by rewrite Hr.
Qed.

Lemma csv_main_eval `{Env} (schema_name table_name table_owner : string) (w : World) :
  CsvToSql.main schema_name table_name table_owner w =
    match readfile ECS_CSV_FILE w with
    | (Ok data, w') =>
        match CsvToSql.compile data schema_name table_name table_owner with
        | Ok sql => (Ok tt, set_fs (fun m => <[file_key ECS_SQL_FILE := sql]> m) w')
        | Raise e => (Raise e, w')
        end
    | (Raise e, w') => (Raise e, w')
    end.
Proof.
  unfold CsvToSql.main, CsvToSql.readfile, bind at 1.
  destruct (readfile ECS_CSV_FILE w) as [[data|e] w']; [|done].
  unfold bind, lift. by destruct (CsvToSql.compile _ _ _ _).
Qed.

Lemma cleaned_has_fields (l : list string) (d' : row) :
  (9 ≤ length l)%nat →
  cleaned (dict_of (zip CsvToSql.fields (VStr <$> l))) d' →
  is_dict d' ∧ has_fields d'.
Proof.
  intros Hl (i & n & e & _ & _ & _ & _ & _ & _ & _ & Hk).
  assert (Hkeys : dict_keys d' = CsvToSql.fields).
  { rewrite Hk. rewrite dict_of_distinct.
    - unfold dict_keys. rewrite zip_keys, length_fmap. apply take_ge. simpl. lia.
    - rewrite zip_keys. eapply sublist_NoDup; [|apply sublist_take].
      by apply (bool_decide_unpack _). }
  split.
  - unfold is_dict. rewrite Hkeys. by apply (bool_decide_unpack _).
  - unfold has_fields. apply Forall_forall. intros x Hx.
    apply dict_get_is_Some. by rewrite Hkeys.
Qed.

(** X6: on a CSV file whose header is the nine ECS column names in order
    and whose data rows (at least one) all have nine fields or more, the
    script [main] of ecs-csv-to-sql.py prints nothing, raises nothing,
    and writes to the SQL file the text of [make_sql] followed by the insert
    statement of the specification over one cleaned row per data row; no
    other file changes. *)
Theorem csv_main_writes_sql `{Env} (schema_name table_name table_owner : string)
    (w : World) (content : string) (records : list (list string)) :
  fs w !! file_key ECS_CSV_FILE = Some content →
  csv_reader content = CsvToSql.fields :: records →
  records ≠ [] →
  Forall (fun l => (9 ≤ length l)%nat) records →
  ∃ data ddl,
    readfile ECS_CSV_FILE w = (Ok data, w) ∧
    length data = length records ∧
    CsvToSql.make_sql data schema_name table_name table_owner = Ok ddl ∧
    CsvToSql.main schema_name table_name table_owner w
    = (Ok tt, set_fs (fun m => <[file_key ECS_SQL_FILE :=
                                   ddl +:+ spec_insert data schema_name table_name]> m) w).
Proof.
  intros Hf Hraw Hne Hlen.
  set (rows := formatted_rows (CsvToSql.fields :: records)).
  assert (Hkeys : Forall supplies_keys rows).
  { subst rows. unfold formatted_rows. apply Forall_fmap. eapply Forall_impl; [exact Hlen|].
    intros l Hl. cbv beta in Hl. unfold compose, supplies_keys. rewrite !dict_get_is_Some.
    rewrite dict_of_distinct.
    - unfold dict_keys. rewrite zip_keys, length_fmap, take_ge by (simpl; lia).
      split_and!; by apply (bool_decide_unpack _).
    - rewrite zip_keys. eapply sublist_NoDup; [|apply sublist_take].
      by apply (bool_decide_unpack _). }
  destruct (clean_data_cleaned rows (formatted_rows_text _) Hkeys) as (data & Hclean & Hall).
  assert (Hread : readfile ECS_CSV_FILE w = (Ok data, w)).
  { rewrite (readfile_eval w ECS_CSV_FILE content Hf), Hraw. cbn zeta.
    rewrite bool_decide_true by (destruct records; [done | simpl; lia]).
    rewrite bool_decide_true by done. fold rows. by rewrite Hclean. }
  assert (Hwf : Forall (fun d => is_dict d ∧ has_fields d) data).
  { subst rows. unfold formatted_rows in Hall. clear Hclean Hkeys Hread Hraw Hne.
    revert data Hall. induction Hlen as [|l records Hl _ IH]; intros data Hall.
    - rewrite fmap_nil in Hall. apply Forall2_nil_inv_l in Hall as ->. constructor.
    - rewrite fmap_cons in Hall. apply Forall2_cons_inv_l in Hall as (d' & data' & Hc & Hall & ->).
      constructor; [by apply (cleaned_has_fields l) | by apply IH]. }
  apply Forall_and in Hwf as [Hdict Hfields].
  destruct (make_sql_result data schema_name table_name table_owner)
    as [(_ & ddl & Hddl)|(k & Hk & Hex & _)].
  - exists data, ddl. split_and!; [done | | done |].
    + apply Forall2_length in Hall. rewrite <-Hall. subst rows. unfold formatted_rows.
      by rewrite length_fmap.
    + rewrite csv_main_eval, Hread. unfold CsvToSql.compile. rewrite Hddl. cbn [rbind].
      unfold CsvToSql.make_sql_preload.
      rewrite (make_sql_preload_loop_spec data) by (done || lia). cbn [rbind].
      do 4 f_equal. unfold spec_insert, spec_insert_head. by rewrite !str_app_assoc.
  - exfalso. apply Exists_exists in Hex as (d & Hd & Hnone).
    rewrite Forall_forall in Hfields. specialize (Hfields d Hd).
    unfold has_fields in Hfields. rewrite Forall_forall in Hfields.
    assert (Hin : k ∈ CsvToSql.fields).
    { clear -Hk. repeat (apply elem_of_cons in Hk as [->|Hk]); try by apply (bool_decide_unpack _).
      by apply elem_of_nil in Hk. }
    destruct (Hfields k Hin) as [v Hv]. congruence.
Qed.

(** X7: on a CSV file that does not load as a usable snapshot (fewer than
    two records, or a header that is not nine columns wide) the script
    [main] of ecs-csv-to-sql.py does not stop: it prints one diagnostic and
    still writes the SQL file, with the text compiled from the empty
    snapshot. *)
Theorem csv_main_unusable_still_writes `{Env} (schema_name table_name table_owner : string)
    (w : World) (content : string) :
  fs w !! file_key ECS_CSV_FILE = Some content →
  ¬ usable (csv_reader content) →
  ∃ sql l,
    CsvToSql.compile [] schema_name table_name table_owner = Ok sql ∧
    CsvToSql.main schema_name table_name table_owner w
    = (Ok tt, set_fs (fun m => <[file_key ECS_SQL_FILE := sql]> m) (printed l w)).
Proof.
  intros Hf Hu.
  assert (∃ sql, CsvToSql.compile [] schema_name table_name table_owner = Ok sql)
    as [sql Hsql] by (by eexists).
  assert (∃ l, readfile ECS_CSV_FILE w = (Ok [], printed l w)) as [l Hr].
  { rewrite (readfile_eval w ECS_CSV_FILE content Hf). cbn zeta.
    case_bool_decide as Hlen; [|by eexists].
    destruct (csv_reader content) as [|header records] eqn:Eraw; [simpl in Hlen; lia|].
    case_bool_decide as Hcol; [|by eexists].
    exfalso. apply Hu. split; [done | by exists header]. }
  exists sql, l. split; [done|]. by rewrite csv_main_eval, Hr, Hsql.
Qed.

(** * Further properties of the change detector *)

Section DetectorMore.
Context `{Env}.

Lemma _ECS_Version_changed_value (w : World) (old new : snapshot) (ov nv : list pyval) :
  OLD (CACHE w) = Some old → NEW (CACHE w) = Some new →
  for_each (getitem "ECS_Version") old = Ok ov →
  for_each (getitem "ECS_Version") new = Ok nv →
  UrlToCsv._ECS_Version_changed w =
    (Ok (if decide (length (set_iter ov) ≠ length (set_iter nv)) then true
         else UrlToCsv._ECS_Version_outer (set_iter ov) (set_iter nv) false), w).
Proof.
  intros Ho Hn Hov Hnv.
  unfold UrlToCsv._ECS_Version_changed, bind, get_world, lift.
  rewrite Ho, Hn. cbn [UrlToCsv.not_None]. rewrite Hov, Hnv.
  by case_decide.
Qed.

Lemma nodup_all_equal (l : list pyval) (v : pyval) :
  NoDup l → (∀ x, x ∈ l → x = v) → l ≠ [] → length l = 1%nat.
Proof.
  intros Hnd Hall Hne. destruct l as [|a [|b l]]; [done | done |].
  exfalso. apply NoDup_cons in Hnd as [Ha _]. apply Ha.
  rewrite (Hall a) by (by left). rewrite <-(Hall b) at 1 by (right; by left). by left.
Qed.

Lemma set_iter_single (l : list pyval) (v : pyval) :
  set_iter_ok → (∀ x, x ∈ l → x = v) → l ≠ [] → length (set_iter l) = 1%nat.
Proof.
  intros Hok Hall Hne. rewrite (Hok l).
  apply (nodup_all_equal _ v); [apply NoDup_remove_dups | |].
  - intros x Hx. apply Hall. by apply elem_of_remove_dups.
  - destruct l as [|a l]; [done|]. intros Hnil.
    assert (a ∈ remove_dups (a :: l)) as Ha by (apply elem_of_remove_dups; by left).
    rewrite Hnil in Ha. by apply elem_of_nil in Ha.
Qed.

Lemma set_iter_nil_inv (l : list pyval) : set_iter_ok → set_iter l = [] → l = [].
Proof.
  intros Hok Hnil. destruct l as [|a l]; [done|].
  assert (a ∈ set_iter (a :: l)) as Ha by (apply set_iter_elem; [done | by left]).
  rewrite Hnil in Ha. by apply elem_of_nil in Ha.
Qed.

Lemma version_verdict (ov nv : list pyval) :
  set_iter_ok →
  (if decide (length (set_iter ov) ≠ length (set_iter nv)) then true
   else UrlToCsv._ECS_Version_outer (set_iter ov) (set_iter nv) false) = false
  ↔ (∀ v vv, v ∈ ov → vv ∈ nv → v = vv) ∧ (ov = [] ↔ nv = []).
Proof.
  intros Hok. split.
  - case_decide as Hlen; [done|]. intros Hout.
    assert (Heq : length (set_iter ov) = length (set_iter nv)) by lia.
    split.
    + intros v vv Hv Hvv. destruct (decide (v = vv)) as [|Hne]; [done|].
      assert (UrlToCsv._ECS_Version_outer (set_iter ov) (set_iter nv) false = true); [|congruence].
      apply _ECS_Version_outer_true. right. exists v, vv. by rewrite !set_iter_elem.
    + split; intros ->; rewrite set_iter_nil in Heq by done; simpl in Heq.
      * apply set_iter_nil_inv; [done|]. by apply nil_length_inv.
      * apply set_iter_nil_inv; [done|]. by apply nil_length_inv.
  - intros [Hall Hnil].
    assert (Heq : length (set_iter ov) = length (set_iter nv)).
    { destruct ov as [|a ov].
      - rewrite (proj1 Hnil) by done. done.
      - destruct nv as [|b nv]; [by destruct Hnil as [_ Hn]; discriminate Hn|].
        rewrite (set_iter_single (a :: ov) b), (set_iter_single (b :: nv) a); try done.
        + intros x Hx. symmetry. apply Hall; [by left | done].
        + intros x Hx. apply Hall; [done | by left]. }
    rewrite decide_False by lia.
    destruct (UrlToCsv._ECS_Version_outer _ _ false) eqn:Hout; [|done].
    apply _ECS_Version_outer_true in Hout as [?|(v & vv & Hv & Hvv & Hne)]; [done|].
    exfalso. apply Hne. apply Hall; by apply set_iter_elem.
Qed.

Lemma _lines_changed_loop_true (old_hashmap items : list (Z * row)) (has : bool) :
  UrlToCsv._lines_changed_loop old_hashmap items has = true ↔
  has = true ∨ ∃ k, k ∈ dict_keys items ∧ k ∉ dict_keys old_hashmap.
Proof.
  revert has. induction items as [|[k v] items IH]; intros has; simpl.
  - split; [auto | intros [?|(? & []%elem_of_nil & _)]; done].
  - destruct (decide (k ∉ dict_keys old_hashmap)) as [Hk|Hk].
    + split; [|done]. intros _. right. exists k. split; [by left | done].
    + destruct has; [by split; auto|]. rewrite IH. split.
      * intros [?|(x & Hx & Hnx)]; [done|]. right. exists x. split; [by right | done].
      * intros [?|(x & Hx & Hnx)]; [done|]. right. exists x. split; [|done].
        apply elem_of_cons in Hx as [->|Hx]; done.
Qed.

Lemma hashmap_keys (rows : snapshot) (k : Z) :
  k ∈ dict_keys (UrlToCsv.hashmap rows) ↔ k ∈ row_hashes rows.
Proof.
  unfold UrlToCsv.hashmap, row_hashes. rewrite dict_of_keys.
  by rewrite <-list_fmap_compose.
Qed.

Lemma _lines_changed_value (w : World) (old new : snapshot) :
  OLD (CACHE w) = Some old → NEW (CACHE w) = Some new →
  ∃ b, UrlToCsv._lines_changed w = (Ok b, w) ∧
       (b = true ↔ ∃ r, r ∈ new ∧ py_hash (UrlToCsv.str_row r) ∉ row_hashes old).
Proof.
  intros Ho Hn. unfold UrlToCsv._lines_changed, bind, get_world, lift.
  rewrite Ho, Hn. cbn [UrlToCsv.not_None]. eexists. split; [reflexivity|].
  rewrite _lines_changed_loop_true. split.
  - intros [?|(k & Hk & Hnk)]; [done|].
    apply hashmap_keys in Hk. unfold row_hashes in Hk.
    apply list_elem_of_fmap in Hk as (r & -> & Hr).
    exists r. split; [done|]. by rewrite <-hashmap_keys.
  - intros (r & Hr & Hnr). right. exists (py_hash (UrlToCsv.str_row r)). split.
    + apply hashmap_keys. unfold row_hashes. apply list_elem_of_fmap. by exists r.
    + by rewrite hashmap_keys.
Qed.
End DetectorMore.

(** X8: when both snapshots are loaded and every row has an
    [ECS_Version], the version witness answers false exactly when no old
    version differs from any new version and the two snapshots are both
    empty or both not; that is, when both are empty or all rows of both
    carry one and the same version. *)
Theorem ECS_Version_changed_verdict `{Env} (w : World) (old new : snapshot)
    (ov nv : list pyval) :
  set_iter_ok →
  OLD (CACHE w) = Some old → NEW (CACHE w) = Some new →
  for_each (getitem "ECS_Version") old = Ok ov →
  for_each (getitem "ECS_Version") new = Ok nv →
  ∃ b, UrlToCsv._ECS_Version_changed w = (Ok b, w) ∧
       (b = false ↔ (∀ v vv, v ∈ ov → vv ∈ nv → v = vv) ∧ (ov = [] ↔ nv = [])).
Proof.
  intros Hok Ho Hn Hov Hnv.
  rewrite (_ECS_Version_changed_value w old new ov nv) by done.
  eexists. split; [reflexivity|]. by apply version_verdict.
Qed.

(** X9: the answer of the version witness does not depend on the order
    in which Python iterates the two sets: any two iteration orders that
    enumerate each distinct element once give the same result, exceptions
    included. *)
Theorem ECS_Version_changed_order_free (E1 E2 : Env) (w : World) :
  @set_iter_ok E1 → @set_iter_ok E2 →
  @UrlToCsv._ECS_Version_changed E1 w = @UrlToCsv._ECS_Version_changed E2 w.
Proof.
  intros H1 H2.
  destruct (OLD (CACHE w)) as [old|] eqn:Ho;
    [|by unfold UrlToCsv._ECS_Version_changed, bind, get_world, lift; rewrite Ho].
  destruct (for_each (getitem "ECS_Version") old) as [ov|e] eqn:Hov;
    [|by unfold UrlToCsv._ECS_Version_changed, bind, get_world, lift;
         rewrite Ho; cbn [UrlToCsv.not_None]; rewrite Hov].
  destruct (NEW (CACHE w)) as [new|] eqn:Hn;
    [|by unfold UrlToCsv._ECS_Version_changed, bind, get_world, lift;
         rewrite Ho, Hn; cbn [UrlToCsv.not_None]; rewrite Hov].
  destruct (for_each (getitem "ECS_Version") new) as [nv|e] eqn:Hnv;
    [|by unfold UrlToCsv._ECS_Version_changed, bind, get_world, lift;
         rewrite Ho, Hn; cbn [UrlToCsv.not_None]; rewrite Hov, Hnv].
  rewrite (@_ECS_Version_changed_value E1 w old new ov nv) by done.
  rewrite (@_ECS_Version_changed_value E2 w old new ov nv) by done.
  do 2 f_equal.
  pose proof (@version_verdict E1 ov nv H1) as V1.
  pose proof (@version_verdict E2 ov nv H2) as V2.
  destruct (if decide (length (@set_iter E1 ov) ≠ length (@set_iter E1 nv)) then true
            else _) eqn:B1;
  destruct (if decide (length (@set_iter E2 ov) ≠ length (@set_iter E2 nv)) then true
            else _) eqn:B2; try done.
  - apply V1, V2. done.
  - symmetry. apply V2, V1. done.
Qed.

(** X10: when both snapshots are loaded, the row-hash witness answers
    true exactly when some new row has a hash that no old row has.  Rows
    that are only in the old snapshot do not count. *)
Theorem lines_changed_verdict `{Env} (w : World) (old new : snapshot) :
  OLD (CACHE w) = Some old → NEW (CACHE w) = Some new →
  ∃ b, UrlToCsv._lines_changed w = (Ok b, w) ∧
       (b = true ↔ ∃ r, r ∈ new ∧ py_hash (UrlToCsv.str_row r) ∉ row_hashes old).
Proof. apply _lines_changed_value. Qed.

Lemma no_change_verdict `{Env} (w : World) (old new : snapshot) (v : pyval) :
  set_iter_ok →
  OLD (CACHE w) = Some old → NEW (CACHE w) = Some new →
  length old = length new →
  Forall (fun d => dict_get "ECS_Version" d = Some v) old →
  Forall (fun d => dict_get "ECS_Version" d = Some v) new →
  (∀ r, r ∈ new → r ∈ old) →
  UrlToCsv.content_has_changed w = (Ok false, w).
Proof.
  intros Hok Ho Hn Hlen Hvo Hvn Hsub.
  assert (Hcol : ∀ rows, Forall (fun d => dict_get "ECS_Version" d = Some v) rows →
            for_each (getitem "ECS_Version") rows = Ok (replicate (length rows) v)).
  { induction 1 as [|d rows Hd _ IH]; [done|]. simpl. unfold getitem at 1.
    by rewrite Hd, IH. }
  rewrite content_has_changed_eval, _length_changed_eval, Ho, Hn. cbn [fst].
  rewrite bool_decide_false by lia.
  assert (HV : UrlToCsv._ECS_Version_changed w = (Ok false, w)).
  { rewrite (_ECS_Version_changed_value w old new _ _ Ho Hn (Hcol old Hvo) (Hcol new Hvn)).
    do 2 f_equal. apply version_verdict; [done|]. split.
    - intros a b Ha%elem_of_replicate Hb%elem_of_replicate. destruct Ha, Hb. congruence.
    - clear -Hlen. destruct old, new; simpl in *; try discriminate; split; done. }
  rewrite HV. cbn [fst].
  destruct (_lines_changed_value w old new Ho Hn) as (b & -> & Hb). cbn [fst].
  destruct b; [|done]. exfalso.
  destruct (proj1 Hb eq_refl) as (r & Hr & Hnr). apply Hnr.
  unfold row_hashes. apply list_elem_of_fmap. exists r. split; [done | by apply Hsub].
Qed.

(** X11: [content_has_changed] answers false whenever the two snapshots
    have the same number of rows, all rows of both carry one and the same
    [ECS_Version], and every new row is also an old row.  Identical
    snapshots of a single version are one such case; a snapshot in which a
    row was replaced by a copy of another row is another, and is not
    noticed. *)
Theorem content_unchanged_when_rows_contained `{Env} (w : World) (old new : snapshot)
    (v : pyval) :
  set_iter_ok →
  OLD (CACHE w) = Some old → NEW (CACHE w) = Some new →
  length old = length new →
  Forall (fun d => dict_get "ECS_Version" d = Some v) old →
  Forall (fun d => dict_get "ECS_Version" d = Some v) new →
  (∀ r, r ∈ new → r ∈ old) →
  UrlToCsv.content_has_changed w = (Ok false, w).
Proof. apply no_change_verdict. Qed.

(** * Further properties of the main run *)

Section Keeps.
Context `{Env}.

Lemma keeps_bind {A B} (c : M A) (f : A → M B) :
  keeps_other_files c → (∀ a, keeps_other_files (f a)) → keeps_other_files (bind c f).
Proof.
  intros Hc Hf w k Hk. unfold bind. specialize (Hc w k Hk).
  destruct (c w) as [[a|e] w1]; simpl in Hc; [|done].
  by rewrite (Hf a w1 k Hk).
Qed.

Lemma keeps_try_except {A} (c : M A) (h : exn → option (M A)) :
  keeps_other_files c → (∀ e k, h e = Some k → keeps_other_files k) →
  keeps_other_files (try_except c h).
Proof.
  intros Hc Hh w k Hk. unfold try_except. specialize (Hc w k Hk).
  destruct (c w) as [[a|e] w1]; simpl in Hc; [done|].
  destruct (h e) as [handler|] eqn:He; [|done].
  by rewrite (Hh e handler He w1 k Hk).
Qed.

Lemma keeps_same_files {A} (c : M A) :
  (∀ w, fs (c w).2 = fs w) → keeps_other_files c.
Proof. intros Hc w k _. by rewrite Hc. Qed.

Lemma keeps_cache_update (f : Cache → Cache) : keeps_other_files (modify (set_CACHE f)).
Proof. by apply keeps_same_files. Qed.

Lemma keeps_print (l : line) : keeps_other_files (print l).
Proof. by apply keeps_same_files. Qed.

Lemma keeps_readfile (file : pyobj) : keeps_other_files (readfile file).
Proof. apply keeps_same_files. intros w. apply readfile_keeps_files. Qed.

Lemma keeps_cleanup (verbose : bool) : keeps_other_files (UrlToCsv.cleanup verbose).
Proof.
  intros w k Hk. destruct (cleanup_spec verbose w) as (w' & -> & Hfs & _). simpl.
  by rewrite Hfs, lookup_delete_ne.
Qed.

Lemma keeps_init_cache (url : string) : keeps_other_files (UrlToCsv.init_cache url).
Proof.
  unfold UrlToCsv.init_cache. apply keeps_bind; [|intros _].
  { unfold UrlToCsv._load_cache_old.
    apply keeps_bind; [apply keeps_readfile | intros data; apply keeps_cache_update]. }
  apply keeps_bind; [|intros _].
  { unfold UrlToCsv._load_cache_new. apply keeps_bind; [|intros _].
    - unfold UrlToCsv.download. apply keeps_bind; [|intros content].
      + unfold UrlToCsv._download_data.
        apply keeps_bind; [by apply keeps_same_files | intros content].
        apply keeps_bind; [apply keeps_cache_update | intros _; by apply keeps_same_files].
      + intros w k Hk. simpl. by rewrite lookup_insert_ne.
    - apply keeps_bind; [apply keeps_readfile | intros data; apply keeps_cache_update]. }
  apply keeps_bind; [|intros _].
  - unfold UrlToCsv._check_new_cache_loaded.
    apply keeps_bind; [by apply keeps_same_files | intros w0].
    destruct (NEW (CACHE w0)); by apply keeps_same_files.
  - unfold UrlToCsv._init_changes_cache.
    apply keeps_bind; [by apply keeps_same_files | intros w0].
    destruct (CHANGES (CACHE w0)); [by apply keeps_same_files | apply keeps_cache_update].
Qed.

Lemma keeps_content_has_changed : keeps_other_files UrlToCsv.content_has_changed.
Proof. apply keeps_same_files. intros w. by rewrite content_has_changed_world. Qed.

Lemma keeps_update_content : keeps_other_files UrlToCsv.update_content.
Proof.
  apply keeps_same_files. intros w.
  destruct (update_content_never_returns w) as [e ->]. done.
Qed.

Lemma keeps_main (url : string) : keeps_other_files (UrlToCsv.main url).
Proof.
  unfold UrlToCsv.main.
  apply keeps_bind; [apply keeps_cleanup | intros _].
  apply keeps_bind; [apply keeps_init_cache | intros _].
  apply keeps_bind.
  - apply keeps_try_except; [apply keeps_content_has_changed|].
    intros e k. unfold UrlToCsv.on_Exception. destruct (is_Exception e); [|done].
    intros [= <-]. apply keeps_bind; [apply keeps_print | intros _].
    by apply keeps_same_files.
  - intros has_changes. apply keeps_bind.
    + destruct has_changes; [|by apply keeps_same_files].
      apply keeps_bind; [apply keeps_print | intros _]. apply keeps_update_content.
    + intros _. apply keeps_bind; [apply keeps_cleanup | intros _].
      by apply keeps_same_files.
Qed.

Lemma cleanup_full (verbose : bool) (w : World) :
  ∃ w', UrlToCsv.cleanup verbose w = (Ok tt, w') ∧
        fs w' = delete (file_key ECS_CSV_TEMFILE) (fs w) ∧
        CACHE w' = CACHE w ∧
        stdout w' =
          (stdout w ++
            if verbose
            then (if bool_decide (is_Some (fs w !! file_key ECS_CSV_TEMFILE))
                  then [Text ("Removing tempfile: " +:+ file_key ECS_CSV_TEMFILE)]
                  else []) ++ [Text "Cleanup complete"]
            else [])%list.
Proof.
  unfold UrlToCsv.cleanup, bind, path_exists, os_remove, print, modify, ret.
  case_bool_decide as Hthere.
  - destruct Hthere as [c Hc]. simpl in Hc.
    destruct verbose; simpl; rewrite Hc; eexists; split_and!; try done; simpl.
    + by rewrite <-app_assoc.
    + by rewrite app_nil_r.
  - apply eq_None_not_Some in Hthere. simpl in Hthere.
    destruct verbose; simpl; eexists; split_and!; try done;
      simpl; by rewrite ?delete_id, ?app_nil_r.
Qed.
End Keeps.

Lemma update_content_value (w : World) :
  UrlToCsv.update_content w =
    (Raise (match OLD (CACHE w) with
            | None => TypeError
            | Some old =>
                match last old with
                | None => IndexError
                | Some last_row =>
                    match dict_get "ECS_Version" last_row with
                    | None => KeyError "ECS_Version"
                    | Some _ => AttributeError "name"
                    end
                end
            end), w).
Proof.
  unfold UrlToCsv.update_content, bind, get_world, lift.
  destruct (OLD (CACHE w)) as [old|]; cbn [UrlToCsv.not_None]; [|done].
  unfold index_last. destruct (last old) as [last_row|]; [|done].
  unfold getitem. by destruct (dict_get "ECS_Version" last_row).
Qed.

(** X12: in every state [update_content] raises and leaves the files,
    the module dictionary and the output as they were: [TypeError] when
    the old snapshot is [None], [IndexError] when it is empty, [KeyError]
    when its last row has no [ECS_Version], and [AttributeError]
    otherwise. *)
Theorem update_content_always_raises (w : World) :
  UrlToCsv.update_content w =
    (Raise (match OLD (CACHE w) with
            | None => TypeError
            | Some old =>
                match last old with
                | None => IndexError
                | Some last_row =>
                    match dict_get "ECS_Version" last_row with
                    | None => KeyError "ECS_Version"
                    | Some _ => AttributeError "name"
                    end
                end
            end), w).
Proof. apply update_content_value. Qed.

(** X13: [cleanup] never raises, whether or not the scratch file exists.
    Afterwards the scratch file is gone, every other file and the module
    dictionary are unchanged, and the output has grown by the line
    [Removing tempfile] (only if the file was there) and the line
    [Cleanup complete] when [verbose] is set, and by nothing otherwise. *)
Theorem cleanup_removes_tempfile (verbose : bool) (w : World) :
  ∃ w', UrlToCsv.cleanup verbose w = (Ok tt, w') ∧
        fs w' = delete (file_key ECS_CSV_TEMFILE) (fs w) ∧
        CACHE w' = CACHE w ∧
        stdout w' =
          (stdout w ++
            if verbose
            then (if bool_decide (is_Some (fs w !! file_key ECS_CSV_TEMFILE))
                  then [Text ("Removing tempfile: " +:+ file_key ECS_CSV_TEMFILE)]
                  else []) ++ [Text "Cleanup complete"]
            else [])%list.
Proof. apply cleanup_full. Qed.

(** X14: whatever the inputs and whatever the outcome, [main] of
    ecs-url-to-csv.py leaves every file other than the scratch file as it
    was: the cache file is never rewritten and no archive file is ever
    created. *)
Theorem main_keeps_other_files `{Env} (url : string) (w : World) (k : string) :
  k ≠ file_key ECS_CSV_TEMFILE →
  fs (UrlToCsv.main url w).2 !! k = fs w !! k.
Proof. intros Hk. by apply keeps_main. Qed.

(** X15: when the cache file does not exist, [main] raises
    [FileNotFoundError] before anything is fetched: the status is 1, the
    module dictionary and the output are unchanged and no scratch file is
    left. *)
Theorem main_without_cache_file `{Env} (url : string) (w : World) :
  fs w !! file_key ECS_CSV_FILE = None →
  ∃ w', UrlToCsv.main url w = (Raise (FileNotFoundError (file_key ECS_CSV_FILE)), w') ∧
        exit_status (UrlToCsv.main url w).1 = 1 ∧
        fs w' = delete (file_key ECS_CSV_TEMFILE) (fs w) ∧
        CACHE w' = CACHE w ∧ stdout w' = stdout w.
Proof.
  intros Hf. rewrite main_eval.
  destruct (cleanup_full false w) as (w0 & -> & Hfs0 & Hc0 & Hout0). cbn [snd].
  assert (Hf0 : fs w0 !! file_key ECS_CSV_FILE = None)
    by (by rewrite Hfs0, lookup_delete_ne).
  assert (Hinit : UrlToCsv.init_cache url w0
                  = (Raise (FileNotFoundError (file_key ECS_CSV_FILE)), w0)).
  { unfold UrlToCsv.init_cache, UrlToCsv._load_cache_old, bind at 1 2.
    by rewrite (readfile_missing w0 ECS_CSV_FILE Hf0). }
  rewrite Hinit.
  simpl in Hout0. rewrite app_nil_r in Hout0.
  exists w0. by split_and!.
Qed.

(** X16: when the cache file loads but the fetch fails with [e], [main]
    lets [e] escape: the old snapshot has been loaded, nothing was written
    to the scratch file and [NEW] and [RAW] are as before. *)
Theorem main_fetch_failure `{Env} (url : string) (w : World) (oldcontent : string)
    (old : snapshot) (e : exn) :
  fs w !! file_key ECS_CSV_FILE = Some oldcontent →
  read_rows oldcontent = Ok old →
  urlopen url = Raise e →
  ∃ w', UrlToCsv.main url w = (Raise e, w') ∧
        fs w' = delete (file_key ECS_CSV_TEMFILE) (fs w) ∧
        OLD (CACHE w') = Some old ∧
        NEW (CACHE w') = NEW (CACHE w) ∧ RAW (CACHE w') = RAW (CACHE w).
Proof.
  intros Hf Hold Hurl. rewrite main_eval.
  destruct (cleanup_full false w) as (w0 & -> & Hfs0 & Hc0 & _). cbn [snd].
  assert (Hf0 : fs w0 !! file_key ECS_CSV_FILE = Some oldcontent)
    by (by rewrite Hfs0, lookup_delete_ne).
  unfold UrlToCsv.init_cache, UrlToCsv._load_cache_old, bind at 1 2.
  pose proof (readfile_result w0 ECS_CSV_FILE oldcontent Hf0) as Hr.
  pose proof (readfile_keeps_files w0 ECS_CSV_FILE) as [Hfs Hc].
  destruct (readfile ECS_CSV_FILE w0) as [r wa]. simpl in Hr, Hfs, Hc.
  rewrite Hr, Hold. unfold UrlToCsv.set_OLD at 1, modify at 1.
  unfold UrlToCsv._load_cache_new, UrlToCsv.download, UrlToCsv._download_data,
    bind at 1 2 3 4, lift at 1.
  rewrite Hurl. eexists. split; [reflexivity|]. simpl.
  rewrite Hfs, Hc, Hfs0, Hc0. done.
Qed.

(** X17: when the cache file and the fetched text load as snapshots with
    different numbers of rows, a change is detected and the run ends in
    the exception of [update_content]: [main] prints that it saves the
    new schema and then stops with status 1; the scratch file, holding
    the fetched text, stays, and the cache file still holds the old
    text. *)
Theorem main_detected_change_crashes `{Env} (url : string) (w : World)
    (oldcontent content : string) (old new : snapshot) :
  fs w !! file_key ECS_CSV_FILE = Some oldcontent →
  urlopen url = Ok content →
  read_rows oldcontent = Ok old →
  read_rows content = Ok new →
  length old ≠ length new →
  ∃ e w', UrlToCsv.main url w = (Raise e, w') ∧
          exit_status (UrlToCsv.main url w).1 = 1 ∧
          last (stdout w') = Some (Text "Content changes detected, saving new schema...") ∧
          fs w' !! file_key ECS_CSV_TEMFILE = Some content ∧
          fs w' !! file_key ECS_CSV_FILE = Some oldcontent.
Proof.
  intros Hf Hurl Hold Hnew Hlen. rewrite main_eval.
  destruct (cleanup_spec false w) as (w0 & -> & Hfs0 & _). cbn [snd].
  destruct (init_cache_run url w0 oldcontent content old new) as (w1 & -> & Hfs1 & Ho & Hn & _);
    [by rewrite Hfs0, lookup_delete_ne | done..|].
  rewrite content_has_changed_eval, _length_changed_eval, Ho, Hn. cbn [fst].
  rewrite bool_decide_true by done.
  rewrite update_content_value. cbn [fst].
  eexists _, _. split_and!; [reflexivity | | | |].
  - simpl. by repeat case_match.
  - simpl. by rewrite last_snoc.
  - simpl. rewrite Hfs1. apply lookup_insert_eq.
  - simpl. by rewrite Hfs1, lookup_insert_ne, Hfs0, lookup_delete_ne.
Qed.

(** X18: when the cache file and the fetched text load as snapshots of
    the same length whose rows all carry one and the same [ECS_Version],
    and every new row is also an old row (identical texts, for one),
    [main] detects no change and exits with status 0; the scratch file is
    removed and the cache file keeps its text. *)
Theorem main_no_change_exits_zero `{Env} (url : string) (w : World)
    (oldcontent content : string) (old new : snapshot) (v : pyval) :
  set_iter_ok →
  fs w !! file_key ECS_CSV_FILE = Some oldcontent →
  urlopen url = Ok content →
  read_rows oldcontent = Ok old →
  read_rows content = Ok new →
  length old = length new →
  Forall (fun d => dict_get "ECS_Version" d = Some v) old →
  Forall (fun d => dict_get "ECS_Version" d = Some v) new →
  (∀ r, r ∈ new → r ∈ old) →
  ∃ w', UrlToCsv.main url w = (Raise (SystemExit 0), w') ∧
        fs w' !! file_key ECS_CSV_TEMFILE = None ∧
        fs w' !! file_key ECS_CSV_FILE = Some oldcontent.
Proof.
  intros Hok Hf Hurl Hold Hnew Hlen Hvo Hvn Hsub. rewrite main_eval.
  destruct (cleanup_spec false w) as (w0 & -> & Hfs0 & _). cbn [snd].
  destruct (init_cache_run url w0 oldcontent content old new) as (w1 & -> & Hfs1 & Ho & Hn & _);
    [by rewrite Hfs0, lookup_delete_ne | done..|].
  rewrite (no_change_verdict w1 old new v) by done. cbn [fst].
  destruct (cleanup_spec true w1) as (w2 & -> & Hfs2 & _). cbn [snd].
  eexists. split_and!; [done | |].
  - rewrite Hfs2. apply lookup_delete_eq.
  - rewrite Hfs2, lookup_delete_ne, Hfs1, lookup_insert_ne, Hfs0, lookup_delete_ne; done.
Qed.

(** * The further properties at concrete inputs *)

Lemma format_data_distinct_header_witness :
  _format_data (CsvToSql.fields :: [["8.0.0"; "true"]; []])
  = Ok ((fun l => zip CsvToSql.fields (VStr <$> l)) <$> [["8.0.0"; "true"]; []]).
Proof.
  apply (format_data_distinct_header CsvToSql.fields [["8.0.0"; "true"]; []]).
  by apply (bool_decide_unpack _).
Defined.

Lemma readfile_rows_wellformed_witness :
  let w := world_of [("ecs.csv", ONE_ROW_TEXT)] in
  let data := [sample_row "8.0.0" "False" "keyword"] in
  Forall is_dict data ∧
  Forall (fun d => (∃ b, dict_get "Indexed" d = Some (VBool b)) ∧
                   is_Some (dict_get "Normalization" d) ∧
                   is_Some (dict_get "Example" d)) data ∧
  fs w = fs w ∧ CACHE w = CACHE w.
Proof.
  intros w data.
  apply (@readfile_rows_wellformed (plain_env (Raise URLError)) w w ECS_CSV_FILE data).
  vm_compute. reflexivity.
Defined.

Lemma add_constraint_lists_values_witness :
  let data := [sample_row "8.0.0" "true" "keyword"; sample_row "8.0.0" "true" "long";
               sample_row "8.0.0" "true" "keyword"] in
  ∃ items, items ≡ₚ remove_dups [VStr "keyword"; VStr "long"; VStr "keyword"] ∧
    @CsvToSql._add_constraint (plain_env (Raise URLError)) "ecs" "t" "Type" data
    = Ok (constraint_head "ecs" "t" "Type"
            +:+ str_join "," (constraint_item <$> items) +:+ constraint_tail).
Proof.
  intros data.
  apply (@add_constraint_lists_values (plain_env (Raise URLError)) "ecs" "t" "Type" data).
  - intros l. reflexivity.
  - reflexivity.
  - discriminate.
Defined.

Lemma make_sql_preload_missing_column_witness :
  let data := [[("ECS_Version", VStr "8.0.0"); ("Indexed", VBool true)]] in
  ∃ k, k ∈ CsvToSql.fields ∧ Exists (fun d => dict_get k d = None) data ∧
       CsvToSql.make_sql_preload data "ecs" "t" "postgres" = Raise (KeyError k).
Proof.
  intros data. apply (make_sql_preload_missing_column data "ecs" "t" "postgres").
  - apply Forall_singleton. unfold is_dict, dict_keys. by apply (bool_decide_unpack _).
  - apply Exists_cons_hd. unfold has_fields. intros Hf.
    apply Forall_cons in Hf as [_ Hf]. apply Forall_cons in Hf as [_ Hf].
    apply Forall_cons in Hf as [[v Hv] _]. discriminate Hv.
Defined.

Lemma csv_main_writes_sql_witness :
  let w := world_of [("ecs.csv", ONE_ROW_TEXT)] in
  ∃ data ddl,
    @readfile (plain_env (Raise URLError)) ECS_CSV_FILE w = (Ok data, w) ∧
    length data = length [["8.0.0"; "False"; "host"; "host.name"; "keyword"; "core"; "";
                           ""; "Hostname"]] ∧
    @CsvToSql.make_sql (plain_env (Raise URLError)) data "ecs" "t" "postgres" = Ok ddl ∧
    @CsvToSql.main (plain_env (Raise URLError)) "ecs" "t" "postgres" w
    = (Ok tt, set_fs (fun m => <[file_key ECS_SQL_FILE :=
                                   ddl +:+ spec_insert data "ecs" "t"]> m) w).
Proof.
  intros w.
  apply (@csv_main_writes_sql (plain_env (Raise URLError)) "ecs" "t" "postgres" w
           ONE_ROW_TEXT).
  - vm_compute. reflexivity.
  - vm_compute. reflexivity.
  - discriminate.
  - apply Forall_singleton. simpl. lia.
Defined.

Lemma csv_main_unusable_still_writes_witness :
  let w := world_of [("ecs.csv", HEADER_ONLY_TEXT)] in
  ∃ sql l,
    @CsvToSql.compile (plain_env (Raise URLError)) [] "ecs" "t" "postgres" = Ok sql ∧
    @CsvToSql.main (plain_env (Raise URLError)) "ecs" "t" "postgres" w
    = (Ok tt, set_fs (fun m => <[file_key ECS_SQL_FILE := sql]> m) (printed l w)).
Proof.
  intros w.
  apply (@csv_main_unusable_still_writes (plain_env (Raise URLError)) "ecs" "t" "postgres"
           w HEADER_ONLY_TEXT).
  - vm_compute. reflexivity.
  - intros [Hlen _]. vm_compute in Hlen. lia.
Defined.

Lemma ECS_Version_changed_verdict_witness :
  let old := [sample_row "8.0.0" "true" "keyword"] in
  let new := [sample_row "9.0.0" "true" "keyword"] in
  ∃ b, @UrlToCsv._ECS_Version_changed (plain_env (Raise URLError)) (world_with old new)
       = (Ok b, world_with old new) ∧
       (b = false ↔ (∀ v vv, v ∈ [VStr "8.0.0"] → vv ∈ [VStr "9.0.0"] → v = vv) ∧
                    ([VStr "8.0.0"] = [] ↔ [VStr "9.0.0"] = [])).
Proof.
  intros old new.
  apply (@ECS_Version_changed_verdict (plain_env (Raise URLError)) (world_with old new)
           old new [VStr "8.0.0"] [VStr "9.0.0"]).
  - intros l. reflexivity.
  - reflexivity.
  - reflexivity.
  - reflexivity.
  - reflexivity.
Defined.

Lemma ECS_Version_changed_order_free_witness :
  let S := [sample_row "8.0.0" "true" "keyword"; sample_row "9.0.0" "true" "keyword"] in
  @UrlToCsv._ECS_Version_changed (plain_env (Raise URLError)) (world_with S S)
  = @UrlToCsv._ECS_Version_changed (reversed_env (Raise URLError)) (world_with S S).
Proof.
  intros S.
  apply (ECS_Version_changed_order_free (plain_env (Raise URLError))
           (reversed_env (Raise URLError)) (world_with S S)).
  - intros l. reflexivity.
  - intros l. apply reverse_Permutation.
Defined.

Lemma lines_changed_verdict_witness :
  let old := [sample_row "8.0.0" "true" "keyword"] in
  let new := [sample_row "8.0.0" "true" "long"] in
  ∃ b, @UrlToCsv._lines_changed (plain_env (Raise URLError)) (world_with old new)
       = (Ok b, world_with old new) ∧
       (b = true ↔ ∃ r, r ∈ new ∧
          @py_hash (plain_env (Raise URLError)) (@UrlToCsv.str_row (plain_env (Raise URLError)) r)
            ∉ @row_hashes (plain_env (Raise URLError)) old).
Proof.
  intros old new.
  apply (@lines_changed_verdict (plain_env (Raise URLError)) (world_with old new) old new);
    reflexivity.
Defined.

Lemma content_unchanged_when_rows_contained_witness :
  let old := [sample_row "8.0.0" "true" "keyword"; sample_row "8.0.0" "true" "long"] in
  let new := [sample_row "8.0.0" "true" "keyword"; sample_row "8.0.0" "true" "keyword"] in
  @UrlToCsv.content_has_changed (plain_env (Raise URLError)) (world_with old new)
  = (Ok false, world_with old new).
Proof.
  intros old new.
  apply (@content_unchanged_when_rows_contained (plain_env (Raise URLError))
           (world_with old new) old new (VStr "8.0.0")).
  - intros l. reflexivity.
  - reflexivity.
  - reflexivity.
  - reflexivity.
  - repeat constructor.
  - repeat constructor.
  - intros r Hr. apply elem_of_cons in Hr as [->|Hr]; [by left|].
    apply elem_of_cons in Hr as [->|Hr]; [by left|]. by apply elem_of_nil in Hr.
Defined.

Lemma main_keeps_other_files_witness :
  let w := world_of [("ecs.csv", ONE_ROW_TEXT)] in
  fs (@UrlToCsv.main (plain_env (Ok TWO_ROWS_TEXT)) ECS_CSV_URL w).2 !! "ecs.csv"
  = fs w !! "ecs.csv".
Proof.
  intros w.
  apply (@main_keeps_other_files (plain_env (Ok TWO_ROWS_TEXT)) ECS_CSV_URL w "ecs.csv").
  discriminate.
Defined.

Lemma main_without_cache_file_witness :
  let w := world_of [] in
  ∃ w', @UrlToCsv.main (plain_env (Ok ONE_ROW_TEXT)) ECS_CSV_URL w
        = (Raise (FileNotFoundError (file_key ECS_CSV_FILE)), w') ∧
        exit_status (@UrlToCsv.main (plain_env (Ok ONE_ROW_TEXT)) ECS_CSV_URL w).1 = 1 ∧
        fs w' = delete (file_key ECS_CSV_TEMFILE) (fs w) ∧
        CACHE w' = CACHE w ∧ stdout w' = stdout w.
Proof.
  intros w.
  apply (@main_without_cache_file (plain_env (Ok ONE_ROW_TEXT)) ECS_CSV_URL w).
  reflexivity.
Defined.

Lemma main_fetch_failure_witness :
  let w := world_of [("ecs.csv", ONE_ROW_TEXT)] in
  ∃ w', @UrlToCsv.main (plain_env (Raise URLError)) ECS_CSV_URL w = (Raise URLError, w') ∧
        fs w' = delete (file_key ECS_CSV_TEMFILE) (fs w) ∧
        OLD (CACHE w') = Some [sample_row "8.0.0" "False" "keyword"] ∧
        NEW (CACHE w') = NEW (CACHE w) ∧ RAW (CACHE w') = RAW (CACHE w).
Proof.
  intros w.
  apply (@main_fetch_failure (plain_env (Raise URLError)) ECS_CSV_URL w ONE_ROW_TEXT).
  - vm_compute. reflexivity.
  - vm_compute. reflexivity.
  - reflexivity.
Defined.

Lemma main_detected_change_crashes_witness :
  let w := world_of [("ecs.csv", ONE_ROW_TEXT)] in
  ∃ e w', @UrlToCsv.main (plain_env (Ok TWO_ROWS_TEXT)) ECS_CSV_URL w = (Raise e, w') ∧
          exit_status (@UrlToCsv.main (plain_env (Ok TWO_ROWS_TEXT)) ECS_CSV_URL w).1 = 1 ∧
          last (stdout w') = Some (Text "Content changes detected, saving new schema...") ∧
          fs w' !! file_key ECS_CSV_TEMFILE = Some TWO_ROWS_TEXT ∧
          fs w' !! file_key ECS_CSV_FILE = Some ONE_ROW_TEXT.
Proof.
  intros w.
  eapply (@main_detected_change_crashes (plain_env (Ok TWO_ROWS_TEXT)) ECS_CSV_URL w
            ONE_ROW_TEXT TWO_ROWS_TEXT).
  - vm_compute. reflexivity.
  - reflexivity.
  - vm_compute. reflexivity.
  - vm_compute. reflexivity.
  - simpl. lia.
Defined.

Lemma main_no_change_exits_zero_witness :
  let w := world_of [("ecs.csv", ONE_ROW_TEXT)] in
  ∃ w', @UrlToCsv.main (plain_env (Ok ONE_ROW_TEXT)) ECS_CSV_URL w
        = (Raise (SystemExit 0), w') ∧
        fs w' !! file_key ECS_CSV_TEMFILE = None ∧
        fs w' !! file_key ECS_CSV_FILE = Some ONE_ROW_TEXT.
Proof.
  intros w.
  eapply (@main_no_change_exits_zero (plain_env (Ok ONE_ROW_TEXT)) ECS_CSV_URL w
            ONE_ROW_TEXT ONE_ROW_TEXT [sample_row "8.0.0" "False" "keyword"]
            [sample_row "8.0.0" "False" "keyword"] (VStr "8.0.0")).
  - intros l. reflexivity.
  - vm_compute. reflexivity.
  - reflexivity.
  - vm_compute. reflexivity.
  - vm_compute. reflexivity.
  - reflexivity.
  - repeat constructor.
  - repeat constructor.
  - intros r Hr. exact Hr.
Defined.
